(** * Bayesian A/B distributions: [bayesian/dists.py]

    A shallow embedding of the module [dists.py] (classes [BayesABDist],
    [Beta] and [Norm]) and the properties its specification states.

    Conventions of the embedding.
    - A float (Python's or numpy's float64) is read as a real number:
      its arithmetic is exact.  Rounding, overflow, infinities and NaN of
      binary64 are outside the model.  Where a divisor is zero or an
      argument lies outside a function's domain numpy yields an infinity
      or NaN, with a RuntimeWarning and no exception, and the model an
      unspecified real: a statement may name such a value and never
      relies on what it is.
    - An integer keeps its kind: a Python int is unbounded, a numpy int64
      wraps around, and [np.power] of a Python int is computed in int64.
      A Python int handed to numpy or SciPy has to lie in the int64
      range (beyond it numpy reads it as uint64 or as an object, or
      refuses it, depending on its version): the statements ask for it
      with [Py.in_int64].  [Py.number] tags a scalar with its kind where the kind
      decides the result: in [np.power] and in the division [/], which
      raises [ZeroDivisionError] between two Python scalars and does not
      when an operand is a numpy scalar.  Where only values matter
      ([Beta.posterior], [gq], [risk]) a scalar is its real value.
    - A call either returns a value or raises: [Py.outcome].
    - [warnings.warn] appends to the list of warnings a call emits:
      [Py.warned].  The list holds what the module itself issues with
      [warn]; numpy's own RuntimeWarnings are not recorded.
    - A numpy array of one dimension is a [list R]; a tuple that is only
      indexed is a [list R] too, an index past its end raising
      [IndexError].
    - Functions imported from SciPy and from the sibling module
      [orthogonal] are not part of [dists.py]: they are the fields of a
      record [library] the definitions are parameterised by. *)

From Stdlib Require Import String.
From Stdlib Require Import Reals Lra Lia ZArith Bool Arith List.
Import ListNotations.
Local Open Scope R_scope.

(** ** Python values and effects *)

Module Py.

(** The exception classes the module's calls can raise. *)
Inductive exn : Type :=
| IndexError
| ValueError
| ZeroDivisionError.

Inductive outcome (A : Type) : Type :=
| Returned (a : A)
| Raised (e : exn).
Arguments Returned {A} a.
Arguments Raised {A} e.

Definition bind {A B : Type} (c : outcome A) (k : A -> outcome B) : outcome B :=
  match c with
  | Returned a => k a
  | Raised e => Raised e
  end.

(** [warnings.warn(msg)] with the default category. *)
Inductive warning : Type :=
| UserWarning (msg : string).

Definition warned (A : Type) : Type := (A * list warning)%type.

(** [t[i]] on a tuple or list. *)
Definition getitem {A : Type} (t : list A) (i : nat) : outcome A :=
  match nth_error t i with
  | Some v => Returned v
  | None => Raised IndexError
  end.

(** [int(x)]: truncation towards zero. *)
Definition int (x : R) : Z :=
  if Rle_dec 0 x then Int_part x else (- Int_part (- x))%Z.

(** The builtin [sum(xs)]: starts from [0] and adds from the left. *)
Definition sum (xs : list R) : R := fold_left Rplus xs 0.

(** A scalar with its kind. *)
Inductive number : Type :=
| PyInt (z : Z)
| PyFloat (x : R)
| NpInt64 (z : Z)
| NpFloat64 (x : R).

Definition value (v : number) : R :=
  match v with
  | PyInt z | NpInt64 z => IZR z
  | PyFloat x | NpFloat64 x => x
  end.

Definition is_numpy (v : number) : bool :=
  match v with
  | NpInt64 _ | NpFloat64 _ => true
  | PyInt _ | PyFloat _ => false
  end.

Definition is_float (v : number) : bool :=
  match v with
  | PyFloat _ | NpFloat64 _ => true
  | PyInt _ | NpInt64 _ => false
  end.

Definition int_value (v : number) : Z :=
  match v with
  | PyInt z | NpInt64 z => z
  | PyFloat _ | NpFloat64 _ => 0%Z
  end.

(** Two's complement wrap-around of int64. *)
Definition wrap64 (z : Z) : Z := ((z + 2 ^ 63) mod 2 ^ 64 - 2 ^ 63)%Z.

(** An int in the range of int64; a float has no such bound. *)
Definition in_int64 (v : number) : Prop :=
  match v with
  | PyInt z | NpInt64 z => (- 2 ^ 63 <= z < 2 ^ 63)%Z
  | PyFloat _ | NpFloat64 _ => True
  end.

(** The scalar of a kind: the real [x] for a float, the integer [z] for
    an int, wrapped when it is numpy's. *)
Definition make (numpy float : bool) (x : R) (z : Z) : number :=
  if float then (if numpy then NpFloat64 x else PyFloat x)
  else (if numpy then NpInt64 (wrap64 z) else PyInt z).

(** [a + b], [a * b]: the result is numpy's when an operand is, and a
    float when an operand is. *)
Definition binop (fR : R -> R -> R) (fZ : Z -> Z -> Z) (a b : number) : number :=
  make (is_numpy a || is_numpy b) (is_float a || is_float b)
    (fR (value a) (value b)) (fZ (int_value a) (int_value b)).

Definition add : number -> number -> number := binop Rplus Z.add.

Definition mul : number -> number -> number := binop Rmult Z.mul.

(** [- v]. *)
Definition neg (v : number) : number :=
  match v with
  | PyInt z => PyInt (- z)
  | PyFloat x => PyFloat (- x)
  | NpInt64 z => NpInt64 (wrap64 (- z))
  | NpFloat64 x => NpFloat64 (- x)
  end.

(** [a / b], true division: always a float; between two Python scalars a
    zero divisor raises, with a numpy operand it does not. *)
Definition truediv (a b : number) : outcome number :=
  if is_numpy a || is_numpy b then Returned (NpFloat64 (value a / value b))
  else if Req_dec_T (value b) 0 then Raised ZeroDivisionError
  else Returned (PyFloat (value a / value b)).

End Py.

Export Py(outcome, Returned, Raised, IndexError, ValueError, ZeroDivisionError).
Export Py(number, PyInt, PyFloat, NpInt64, NpFloat64).

Declare Scope py_scope.
Delimit Scope py_scope with py.
Notation "x <- c ;; k" := (Py.bind c (fun x => k))
  (at level 61, c at next level, right associativity) : py_scope.
Notation "' pat <- c ;; k" :=
  (Py.bind c (fun x => match x with pat => k end))
  (at level 61, pat pattern, c at next level, right associativity) : py_scope.
Local Open Scope py_scope.

(** ** The part of numpy the module uses *)

Module np.

(** [np.power(v, k)] for a natural exponent [k] given as a Python int: a
    numpy scalar, computed in int64 for an int and in float64 for a
    float. *)
Definition power (v : number) (k : nat) : number :=
  match v with
  | PyInt z | NpInt64 z => NpInt64 (Py.wrap64 (z ^ Z.of_nat k))
  | PyFloat x | NpFloat64 x => NpFloat64 (x ^ k)
  end.

Definition sqrt (v : number) : number := NpFloat64 (R_sqrt.sqrt (Py.value v)).

Definition log (v : number) : number := NpFloat64 (ln (Py.value v)).

(** The square of an int stays below [2^63]: [np.power(v, 2)] does not
    wrap.  A float has no such bound. *)
Definition square_fits (v : number) : Prop :=
  match v with
  | PyInt z | NpInt64 z => (z * z < 2 ^ 63)%Z
  | PyFloat _ | NpFloat64 _ => True
  end.

Fixpoint map2 (f : R -> R -> R) (xs ys : list R) : list R :=
  match xs, ys with
  | x :: xs', y :: ys' => f x y :: map2 f xs' ys'
  | _, _ => []
  end.

(** A binary operator on two arrays of one dimension: element by element
    when the lengths agree, an array of length one is stretched, any
    other pair of shapes does not broadcast. *)
Definition broadcast (f : R -> R -> R) (xs ys : list R) : outcome (list R) :=
  if Nat.eqb (length xs) (length ys) then Returned (map2 f xs ys)
  else match xs, ys with
       | [x], _ => Returned (map (f x) ys)
       | _, [y] => Returned (map (fun x => f x y) xs)
       | _, _ => Raised ValueError
       end.

Definition multiply : list R -> list R -> outcome (list R) := broadcast Rmult.

End np.

(** ** SciPy and [orthogonal] *)

(** A frozen continuous distribution of [scipy.stats] with two shape or
    location/scale arguments: its scalar [cdf(x, par1, par2)] and
    [mean(par1, par2)]. *)
Record rv_continuous : Type := {
  cdf : R -> R -> R -> R;
  mean : R -> R -> R
}.

(** [dist.cdf(xs, par1, par2)] over an array of points. *)
Definition cdf_array (d : rv_continuous) (xs : list R) (par1 par2 : R) : list R :=
  map (fun x => cdf d x par1 par2) xs.

(** [dist.mean(par1s, par2s)] over two tuples of parameters. *)
Definition mean_array (d : rv_continuous) (par1s par2s : list R) : outcome (list R) :=
  np.broadcast (mean d) par1s par2s.

(** What [dists.py] imports and does not define. *)
Record library : Type := {
  (** [scipy.stats.beta], [scipy.stats.norm] *)
  beta : rv_continuous;
  norm : rv_continuous;
  (** [scipy.special.digamma], [scipy.special.polygamma] *)
  digamma : R -> R;
  polygamma : nat -> R -> R;
  (** [scipy.special.roots_hermitenorm(n, True)]: nodes, weights and the
      total mass of the weights. *)
  roots_hermitenorm : Z -> outcome (list R * list R * R);
  (** [orthogonal.roots_sh_jacobi(n, p1, q1, False)]: nodes and weights. *)
  roots_sh_jacobi : Z -> R -> R -> outcome (list R * list R)
}.

Definition EPSILON : R := 1 / 10000.

(** ** class BayesABDist *)

Module BayesABDist.

(** A concrete subclass as [risk] reads it through [cls]: its class
    attribute [dist] and its static method [gq].  ([posterior] and
    [moments] are not reached through [cls].) *)
Record t : Type := {
  dist : rv_continuous;
  gq : R -> R -> R -> outcome (list R * list R)
}.

Definition risk (cls : t) (a_par1 a_par2 b_par1 b_par2 : R) (n : R)
  : outcome (list R) :=
  '(nodes_a, weights_a) <- gq cls n a_par1 a_par2 ;;
  '(nodes_b, weights_b) <- gq cls n b_par1 b_par2 ;;
  ta <- np.multiply nodes_a (cdf_array (dist cls) nodes_a b_par1 b_par2) ;;
  ta <- np.multiply ta weights_a ;;
  tb <- np.multiply nodes_b (cdf_array (dist cls) nodes_b a_par1 a_par2) ;;
  tb <- np.multiply tb weights_b ;;
  let gq := Py.sum ta + Py.sum tb in
  means <- mean_array (dist cls) [a_par1; b_par1] [a_par2; b_par2] ;;
  let out := map (fun m => gq - m) means in
  Returned out.

(** The default order of the rule, [n=24]. *)
Definition risk_default (cls : t) (a_par1 a_par2 b_par1 b_par2 : R) :=
  risk cls a_par1 a_par2 b_par1 b_par2 24.

End BayesABDist.

(** ** class Beta *)

Module Beta.
Section WithLibrary.
Variable lib : library.

Definition posterior (prior data : list R) : outcome (R * R) :=
  p0 <- Py.getitem prior 0 ;;
  d0 <- Py.getitem data 0 ;;
  let a := p0 + d0 in
  p1 <- Py.getitem prior 1 ;;
  d1 <- Py.getitem data 1 ;;
  d0' <- Py.getitem data 0 ;;
  let b := p1 + d1 - d0' in
  Returned (a, b).

Definition moments (par1 par2 : number) (log : bool)
  : Py.warned (outcome (number * number)) :=
  if log then
    (mean <- Py.truediv par1 (Py.add par1 par2) ;;
     var <- Py.truediv (Py.mul par1 par2)
              (Py.mul (np.power (Py.add par1 par2) 2)
                 (Py.add (Py.add par1 par2) (PyInt 1))) ;;
     Returned (mean, var),
     [])
  else
    let mean :=
      NpFloat64 (digamma lib (Py.value par1)
                 - digamma lib (Py.value (Py.add par1 par2))) in
    let var :=
      NpFloat64 (polygamma lib 1 (Py.value par1)
                 - polygamma lib 1 (Py.value (Py.add par1 par2))) in
    (Returned (mean, var), []).

Definition gq (n par1 par2 : R) : outcome (list R * list R) :=
  '(x, w) <- roots_sh_jacobi lib (Py.int n) (par1 + par2 - 1) par1 ;;
  Returned (x, w).

Definition cls : BayesABDist.t := {|
  BayesABDist.dist := beta lib;
  BayesABDist.gq := gq
|}.

End WithLibrary.
End Beta.

(** ** class Norm *)

Module Norm.
Section WithLibrary.
Variable lib : library.

Definition posterior (prior data : list number) : outcome (number * number) :=
  p2 <- Py.getitem prior 2 ;;
  p1 <- Py.getitem prior 1 ;;
  inv_var_0 <- Py.truediv p2 (np.power p1 2) ;;
  d2 <- Py.getitem data 2 ;;
  d1 <- Py.getitem data 1 ;;
  inv_var_d <- Py.truediv d2 (np.power d1 2) ;;
  var <- Py.truediv (PyInt 1) (Py.add inv_var_0 inv_var_d) ;;
  p0 <- Py.getitem prior 0 ;;
  d0 <- Py.getitem data 0 ;;
  let loc := Py.mul var (Py.add (Py.mul inv_var_0 p0) (Py.mul inv_var_d d0)) in
  let scale := np.sqrt var in
  Returned (loc, scale).

Definition negative_warning : Py.warning :=
  Py.UserWarning
    "probability of being negative is higher than 0.0001. log approximation is in-exact".

Definition moments (par1 par2 : number) (log : bool)
  : Py.warned (outcome (number * number)) :=
  if log then
    let warnings :=
      if Rlt_dec EPSILON (cdf (norm lib) 0 (Py.value par1) (Py.value par2))
      then [negative_warning] else [] in
    let mean := np.log par1 in
    (q <- Py.truediv par2 par1 ;;
     let var := np.power q 2 in
     Returned (mean, var),
     warnings)
  else
    let mean := par1 in
    let var := np.power par2 2 in
    (Returned (mean, var), []).

Definition gq (n par1 par2 : R) : outcome (list R * list R) :=
  '(x, w, m) <- roots_hermitenorm lib (Py.int n) ;;
  let x := map (fun xi => par2 * xi + par1) x in
  let w := map (fun wi => wi / m) w in
  Returned (x, w).

Definition cls : BayesABDist.t := {|
  BayesABDist.dist := norm lib;
  BayesABDist.gq := gq
|}.

End WithLibrary.
End Norm.

(** ** Quantities the specification names *)

(** The precision a summary [(location, scale, weight)] contributes:
    [weight / scale²]. *)
Definition inv_var (scale weight : R) : R := weight / scale ^ 2.

(** [Σ nodes·F(nodes)·weights], term by term over the rule. *)
Fixpoint quadrature_sum (F : R -> R) (nodes weights : list R) : R :=
  match nodes, weights with
  | x :: nodes', w :: weights' => x * F x * w + quadrature_sum F nodes' weights'
  | _, _ => 0
  end.

(** The estimate of [E[max(A, B)]]: each arm's rule against the other
    arm's cumulative distribution function. *)
Definition gq_est (d : rv_continuous) (a_par1 a_par2 b_par1 b_par2 : R)
    (nodes_A weights_A nodes_B weights_B : list R) : R :=
  quadrature_sum (fun x => cdf d x b_par1 b_par2) nodes_A weights_A
  + quadrature_sum (fun x => cdf d x a_par1 a_par2) nodes_B weights_B.

(** The valid domain of each family's data and parameters. *)
Definition beta_valid (a_prior b_prior successes trials : R) : Prop :=
  0 < a_prior /\ 0 < b_prior /\ 0 <= successes /\ successes <= trials.

Definition normal_valid (scale_p weight_p scale_d weight_d : R) : Prop :=
  0 < scale_p /\ 0 < weight_p /\ 0 < scale_d /\ 0 < weight_d.

(** The denominator of the [log=True] variance of [Beta.moments] is
    formed in int64 when both parameters are ints,
    [np.power(par1 + par2, 2) * (par1 + par2 + 1)]: it does not wrap while
    this product stays below [2^63]. *)
Definition beta_denominator_fits (par1 par2 : number) : Prop :=
  match Py.add par1 par2 with
  | PyInt s | NpInt64 s => (0 <= s /\ s * s * (s + 1) < 2 ^ 63)%Z
  | PyFloat _ | NpFloat64 _ => True
  end.

(** A scalar that is not a numpy int64: its sums are exact. *)
Definition not_int64 (v : number) : Prop :=
  match v with
  | NpInt64 _ => False
  | PyInt _ | PyFloat _ | NpFloat64 _ => True
  end.

(** A summary [(location, scale, weight)] numpy computes with exactly: its
    ints lie in the int64 range and the square of its scale does not
    wrap. *)
Definition summary_fits (loc scale weight : number) : Prop :=
  Py.in_int64 loc /\ np.square_fits scale /\ Py.in_int64 weight.

(** ** Contracts of the imported rule generators *)

(** [scipy.special.roots_hermitenorm(n, True)], as SciPy documents it: for
    an order [n >= 1] it returns [n] nodes, [n] weights and [mu], the sum
    of the weights, which is not zero (it is [sqrt(2π)]). *)
Definition hermitenorm_rule (lib : library) : Prop :=
  forall n : Z, (1 <= n)%Z ->
    exists (x w : list R) (m : R),
      roots_hermitenorm lib n = Returned (x, w, m)
      /\ length x = Z.to_nat n /\ length w = Z.to_nat n
      /\ Py.sum w = m /\ m <> 0.

(** Modelled from the spec: [roots_sh_jacobi] of the sibling module
    [orthogonal], which is not among the sources.  The specification asks
    of the Beta rule that it has exactly [n] nodes and [n] weights and that
    its weights sum to 1, so that they are a discrete approximation of the
    posterior's probability measure; the shifted Jacobi rule with
    parameters [(p1, q1)] exists for [p1 - q1 > -1] and [q1 > 0]. *)
Definition sh_jacobi_rule (lib : library) : Prop :=
  forall (n : Z) (p1 q1 : R), (1 <= n)%Z -> -1 < p1 - q1 -> 0 < q1 ->
    exists x w : list R,
      roots_sh_jacobi lib n p1 q1 = Returned (x, w)
      /\ length x = Z.to_nat n /\ length w = Z.to_nat n
      /\ Py.sum w = 1.

(** [scipy.special.roots_hermitenorm] rejects an order below 1: SciPy
    raises [ValueError] ("n must be a positive integer"). *)
Definition hermitenorm_rejects (lib : library) : Prop :=
  forall n : Z, (n < 1)%Z -> roots_hermitenorm lib n = Raised ValueError.

(** A library to run the definitions on: every rule puts equal weights on
    one repeated node, the Beta distribution is the uniform one and the
    Normal cumulative distribution function is taken at its median. *)
Definition stub_library : library := {|
  beta := {| cdf := fun x _ _ => x; mean := fun a b => a / (a + b) |};
  norm := {| cdf := fun _ _ _ => 1 / 2; mean := fun loc _ => loc |};
  digamma := fun _ => 0;
  polygamma := fun _ _ => 0;
  roots_hermitenorm := fun n =>
    if (n <? 1)%Z then Raised ValueError
    else Returned (repeat 0 (Z.to_nat n), repeat 1 (Z.to_nat n), IZR n);
  roots_sh_jacobi := fun n _ _ =>
    if (n <? 1)%Z then Raised ValueError
    else Returned (repeat (1 / 2) (Z.to_nat n), repeat (1 / IZR n) (Z.to_nat n))
|}.

(** The stub library with the generator replaced by the probabilists'
    Gauss-Hermite rules of order 1 (node 0) and 2 (nodes -1 and 1), of
    total mass [sqrt(2π)]; other orders are rejected. *)
Definition two_point_library : library := {|
  beta := beta stub_library;
  norm := norm stub_library;
  digamma := digamma stub_library;
  polygamma := polygamma stub_library;
  roots_hermitenorm := fun n =>
    if (n =? 1)%Z then Returned ([0], [sqrt (2 * PI)], sqrt (2 * PI))
    else if (n =? 2)%Z
    then Returned ([-1; 1], [sqrt (2 * PI) / 2; sqrt (2 * PI) / 2], sqrt (2 * PI))
    else Raised ValueError;
  roots_sh_jacobi := roots_sh_jacobi stub_library
|}.

(** ** Proof steps *)

(** Decides the range conditions of given numbers. *)
Ltac solve_fits :=
  unfold summary_fits; cbn; repeat split; try lra; try lia.

(** Runs [risk] up to its two calls of [gq], whose results are given. *)
Ltac enter_risk Ha Hb :=
  unfold BayesABDist.risk; rewrite Ha; cbn [Py.bind]; rewrite Hb; cbn [Py.bind].

(** ** Kinds of numbers *)

Lemma wrap64_small (z : Z) :
  (- 2 ^ 63 <= z < 2 ^ 63)%Z -> Py.wrap64 z = z.
Proof.
  intros H. unfold Py.wrap64. rewrite Z.mod_small; lia.
Qed.

Lemma is_numpy_power (v : number) (k : nat) : Py.is_numpy (np.power v k) = true.
Proof. destruct v; reflexivity. Qed.

(** Where the square fits, [np.power(v, 2)] is the square. *)
Lemma power_fits (v : number) :
  np.square_fits v -> Py.value (np.power v 2) = Py.value v ^ 2.
Proof.
  assert (Hint : forall z : Z, (z * z < 2 ^ 63)%Z ->
                   IZR (Py.wrap64 (z ^ Z.of_nat 2)) = IZR z ^ 2).
  { intros z Hz. change (Z.of_nat 2) with 2%Z. rewrite Z.pow_2_r.
    rewrite wrap64_small by nia. rewrite mult_IZR. ring. }
  destruct v as [z | x | z | x]; cbn [np.square_fits np.power Py.value];
    intros H; auto.
Qed.

(** A division with a numpy operand does not raise. *)
Lemma truediv_numpy_r (a b : number) :
  Py.is_numpy b = true ->
  Py.truediv a b = Returned (NpFloat64 (Py.value a / Py.value b)).
Proof.
  intros H. unfold Py.truediv. rewrite H, orb_true_r. reflexivity.
Qed.

(** Between two Python scalars it raises exactly on a zero divisor. *)
Lemma truediv_python (a b : number) :
  Py.is_numpy a = false -> Py.is_numpy b = false ->
  (Py.value b = 0 -> Py.truediv a b = Raised ZeroDivisionError)
  /\ (Py.value b <> 0 ->
      Py.truediv a b = Returned (PyFloat (Py.value a / Py.value b))).
Proof.
  intros Ha Hb. unfold Py.truediv. rewrite Ha, Hb. cbn [orb].
  destruct (Req_dec_T (Py.value b) 0) as [H0 | Hn]; split; intros H;
    try reflexivity; contradiction.
Qed.

(** Sums and products of scalars that are not int64 are exact. *)
Lemma add_value (a b : number) :
  not_int64 a -> not_int64 b ->
  Py.value (Py.add a b) = Py.value a + Py.value b
  /\ not_int64 (Py.add a b).
Proof.
  destruct a, b; cbn; intros Ha Hb; try contradiction;
    split; try exact I; try reflexivity.
  apply plus_IZR.
Qed.

Lemma mul_value (a b : number) :
  not_int64 a -> not_int64 b ->
  Py.value (Py.mul a b) = Py.value a * Py.value b.
Proof.
  destruct a, b; cbn; intros Ha Hb; try contradiction; try reflexivity.
  apply mult_IZR.
Qed.

(** ** Posterior updates *)

Lemma Beta_posterior_eq (a b s t : R) (prior_rest data_rest : list R) :
  Beta.posterior (a :: b :: prior_rest) (s :: t :: data_rest)
  = Returned (a + s, b + t - s).
Proof. reflexivity. Qed.

(** [Norm.posterior] in closed form; the squares are numpy's. *)
Lemma Norm_posterior_eq (lp sp wp ld sd wd : number)
    (prior_rest data_rest : list number) :
  Norm.posterior (lp :: sp :: wp :: prior_rest) (ld :: sd :: wd :: data_rest)
  = Returned
      (NpFloat64
         (1 / (Py.value wp / Py.value (np.power sp 2)
               + Py.value wd / Py.value (np.power sd 2))
          * (Py.value wp / Py.value (np.power sp 2) * Py.value lp
             + Py.value wd / Py.value (np.power sd 2) * Py.value ld)),
       NpFloat64
         (sqrt (1 / (Py.value wp / Py.value (np.power sp 2)
                     + Py.value wd / Py.value (np.power sd 2))))).
Proof.
  unfold Norm.posterior. cbn [Py.getitem nth_error Py.bind].
  rewrite !truediv_numpy_r by apply is_numpy_power.
  cbn [Py.bind]. reflexivity.
Qed.

(** The same where both squares fit: the formula over the values. *)
Lemma Norm_posterior_fits (lp sp wp ld sd wd : number)
    (prior_rest data_rest : list number) :
  np.square_fits sp -> np.square_fits sd ->
  Norm.posterior (lp :: sp :: wp :: prior_rest) (ld :: sd :: wd :: data_rest)
  = Returned
      (NpFloat64
         (1 / (inv_var (Py.value sp) (Py.value wp)
               + inv_var (Py.value sd) (Py.value wd))
          * (inv_var (Py.value sp) (Py.value wp) * Py.value lp
             + inv_var (Py.value sd) (Py.value wd) * Py.value ld)),
       NpFloat64
         (sqrt (1 / (inv_var (Py.value sp) (Py.value wp)
                     + inv_var (Py.value sd) (Py.value wd))))).
Proof.
  intros Hp Hd. rewrite Norm_posterior_eq, !power_fits by assumption.
  reflexivity.
Qed.

Lemma inv_var_pos (scale weight : R) :
  0 < scale -> 0 < weight -> 0 < inv_var scale weight.
Proof.
  intros Hs Hw. unfold inv_var.
  apply Rdiv_lt_0_compat; [assumption | apply pow_lt; assumption].
Qed.

Lemma inv_inv_var (scale weight : R) :
  0 < scale -> 0 < weight -> 1 / inv_var scale weight = scale ^ 2 / weight.
Proof.
  intros Hs Hw. unfold inv_var. field. split; lra.
Qed.

(** Adding a positive precision strictly lowers the variance. *)
Lemma recip_sum_lt (A B : R) : 0 < A -> 0 < B -> 1 / (A + B) < 1 / A.
Proof.
  intros HA HB. unfold Rdiv. rewrite !Rmult_1_l.
  apply Rinv_0_lt_contravar; lra.
Qed.

Lemma posterior_variance (sp wp sd wd : R) :
  0 < sp -> 0 < wp -> 0 < sd -> 0 < wd ->
  sqrt (1 / (inv_var sp wp + inv_var sd wd)) ^ 2
  = 1 / (inv_var sp wp + inv_var sd wd).
Proof.
  intros Hsp Hwp Hsd Hwd.
  pose proof (inv_var_pos sp wp Hsp Hwp) as HA.
  pose proof (inv_var_pos sd wd Hsd Hwd) as HB.
  apply pow2_sqrt. apply Rlt_le, Rdiv_lt_0_compat; lra.
Qed.

(** C2.  [Beta.posterior] returns exactly
    [(a_prior + successes, b_prior + trials - successes)] for every prior
    pair and data summary; on the prior [(1, 1)] and the data [(50, 100)]
    it returns [(51, 51)]. *)
Theorem Beta_posterior_closed_form :
  (forall a_prior b_prior successes trials : R,
      Beta.posterior [a_prior; b_prior] [successes; trials]
      = Returned (a_prior + successes, b_prior + trials - successes))
  /\ Beta.posterior [1; 1] [50; 100] = Returned (51, 51).
Proof.
  split.
  - intros. apply Beta_posterior_eq.
  - rewrite Beta_posterior_eq. do 2 f_equal; lra.
Qed.

(** C8.  A Beta prior with both parameters strictly positive, updated with
    data where [trials >= successes >= 0], gives a posterior with both
    parameters strictly positive. *)
Theorem Beta_posterior_stays_positive (a_prior b_prior successes trials : R) :
  0 < a_prior -> 0 < b_prior -> 0 <= successes -> successes <= trials ->
  exists a b : R,
    Beta.posterior [a_prior; b_prior] [successes; trials] = Returned (a, b)
    /\ 0 < a /\ 0 < b.
Proof.
  intros Ha Hb Hs Ht.
  exists (a_prior + successes), (b_prior + trials - successes).
  split; [apply Beta_posterior_eq | lra].
Qed.

Lemma Beta_posterior_stays_positive_witness :
  exists a b : R,
    Beta.posterior [1; 1] [50; 100] = Returned (a, b) /\ 0 < a /\ 0 < b.
Proof.
  apply (Beta_posterior_stays_positive 1 1 50 100); lra.
Defined.

(** With no observation the prior comes back unchanged. *)
Lemma Beta_posterior_no_data (a_prior b_prior : R) :
  Beta.posterior [a_prior; b_prior] [0; 0] = Returned (a_prior, b_prior).
Proof. rewrite Beta_posterior_eq. do 2 f_equal; lra. Qed.




(** C7, as stated, fails: with weights below 1 the posterior variance
    exceeds the squared scales.  Prior [(0, 1, 0.1)] and data
    [(0, 1, 0.1)] are valid, both variances (squared scales) are 1, and
    the posterior variance is 5. *)
Lemma Norm_posterior_variance_counterexample :
  normal_valid (Py.value (PyInt 1)) (Py.value (PyFloat (1 / 10)))
    (Py.value (PyInt 1)) (Py.value (PyFloat (1 / 10)))
  /\ exists loc scale : number,
       Norm.posterior [PyInt 0; PyInt 1; PyFloat (1 / 10)]
         [PyInt 0; PyInt 1; PyFloat (1 / 10)]
       = Returned (loc, scale)
       /\ Py.value scale ^ 2 = 5
       /\ Rmin (Py.value (PyInt 1) ^ 2) (Py.value (PyInt 1) ^ 2)
          < Py.value scale ^ 2.
Proof.
  split; [unfold normal_valid; cbn [Py.value]; lra |].
  eexists _, _. split; [apply Norm_posterior_fits; cbn; lia |].
  cbn [Py.value].
  rewrite posterior_variance by lra.
  replace (1 / (inv_var 1 (1 / 10) + inv_var 1 (1 / 10))) with 5
    by (unfold inv_var; field).
  split; [reflexivity |].
  apply Rle_lt_trans with (1 ^ 2); [apply Rmin_l | simpl; lra].
Qed.

(** C7, amended.  For positive scales and weights, given as floats or as
    ints in the int64 range whose scales have squares below [2^63], the
    posterior variance (the
    square of the returned scale) is strictly less than the minimum of
    [scale_p² / weight_p] and [scale_d² / weight_d]; when both weights are
    at least 1 it is strictly less than the minimum of the squared scales
    [scale_p²] and [scale_d²]. *)
Theorem Norm_posterior_variance_shrinks
    (loc_p scale_p weight_p loc_d scale_d weight_d : number) :
  0 < Py.value scale_p -> 0 < Py.value weight_p ->
  0 < Py.value scale_d -> 0 < Py.value weight_d ->
  summary_fits loc_p scale_p weight_p -> summary_fits loc_d scale_d weight_d ->
  exists loc scale : number,
    Norm.posterior [loc_p; scale_p; weight_p] [loc_d; scale_d; weight_d]
    = Returned (loc, scale)
    /\ Py.value scale ^ 2
       < Rmin (Py.value scale_p ^ 2 / Py.value weight_p)
           (Py.value scale_d ^ 2 / Py.value weight_d)
    /\ (1 <= Py.value weight_p -> 1 <= Py.value weight_d ->
        Py.value scale ^ 2
        < Rmin (Py.value scale_p ^ 2) (Py.value scale_d ^ 2)).
Proof.
  intros Hsp Hwp Hsd Hwd (_ & Hfp & _) (_ & Hfd & _).
  eexists _, _. split; [apply Norm_posterior_fits; assumption |].
  cbn [Py.value].
  set (sp := Py.value scale_p) in *. set (wp := Py.value weight_p) in *.
  set (sd := Py.value scale_d) in *. set (wd := Py.value weight_d) in *.
  rewrite posterior_variance by assumption.
  pose proof (inv_var_pos sp wp Hsp Hwp) as HA.
  pose proof (inv_var_pos sd wd Hsd Hwd) as HB.
  assert (Hp : 1 / (inv_var sp wp + inv_var sd wd) < sp ^ 2 / wp).
  { rewrite <- (inv_inv_var sp wp) by assumption.
    apply recip_sum_lt; assumption. }
  assert (Hd : 1 / (inv_var sp wp + inv_var sd wd) < sd ^ 2 / wd).
  { rewrite <- (inv_inv_var sd wd) by assumption.
    rewrite Rplus_comm. apply recip_sum_lt; assumption. }
  assert (Hdiv : forall s w : R, 0 < s -> 1 <= w -> s ^ 2 / w <= s ^ 2).
  { intros s w Hs Hw. apply Rmult_le_reg_r with (r := w); [lra |].
    unfold Rdiv. rewrite Rmult_assoc, Rinv_l by lra.
    assert (0 < s ^ 2) by (apply pow_lt; assumption). nra. }
  split.
  - apply Rmin_glb_lt; assumption.
  - intros H1p H1d. apply Rmin_glb_lt.
    + apply Rlt_le_trans with (sp ^ 2 / wp); [assumption | apply Hdiv; assumption].
    + apply Rlt_le_trans with (sd ^ 2 / wd); [assumption | apply Hdiv; assumption].
Qed.

Lemma Norm_posterior_variance_shrinks_witness :
  exists loc scale : number,
    Norm.posterior [PyInt 0; PyInt 1; PyInt 2] [PyInt 1; PyFloat 3; PyInt 4]
    = Returned (loc, scale)
    /\ Py.value scale ^ 2
       < Rmin (Py.value (PyInt 1) ^ 2 / Py.value (PyInt 2))
           (Py.value (PyFloat 3) ^ 2 / Py.value (PyInt 4))
    /\ (1 <= Py.value (PyInt 2) -> 1 <= Py.value (PyInt 4) ->
        Py.value scale ^ 2
        < Rmin (Py.value (PyInt 1) ^ 2) (Py.value (PyFloat 3) ^ 2)).
Proof.
  apply (Norm_posterior_variance_shrinks
           (PyInt 0) (PyInt 1) (PyInt 2) (PyInt 1) (PyFloat 3) (PyInt 4));
    solve_fits.
Defined.

(** Neither update raises anything but [IndexError], and only on a tuple
    that is too short. *)
Lemma Beta_posterior_raises (prior data : list R) (e : Py.exn) :
  Beta.posterior prior data = Raised e ->
  e = IndexError /\ (length prior < 2 \/ length data < 2)%nat.
Proof.
  destruct prior as [|a [|b prior]]; destruct data as [|s [|t data]];
    cbn; intros H; inversion H; subst; split; auto; lia.
Qed.

Lemma Norm_posterior_raises (prior data : list number) (e : Py.exn) :
  Norm.posterior prior data = Raised e ->
  e = IndexError /\ (length prior < 3 \/ length data < 3)%nat.
Proof.
  destruct prior as [|lp [|sp [|wp prior]]];
    destruct data as [|ld [|sd [|wd data]]];
    try (rewrite Norm_posterior_eq; discriminate);
    unfold Norm.posterior; cbn [Py.getitem nth_error Py.bind];
    rewrite ?truediv_numpy_r by apply is_numpy_power;
    cbn [Py.bind length]; intros H; inversion H; subst; split; auto; lia.
Qed.

(** int64 forgets multiples of [2^64]. *)
Lemma wrap64_add_mul (a k : Z) : Py.wrap64 (a + k * 2 ^ 64) = Py.wrap64 a.
Proof.
  unfold Py.wrap64.
  replace (a + k * 2 ^ 64 + 2 ^ 63)%Z with (a + 2 ^ 63 + k * 2 ^ 64)%Z by ring.
  rewrite Z.mod_add by lia. reflexivity.
Qed.

Lemma wrap64_spec (a : Z) : exists k : Z, Py.wrap64 a = (a + k * 2 ^ 64)%Z.
Proof.
  exists (- ((a + 2 ^ 63) / 2 ^ 64))%Z. unfold Py.wrap64.
  rewrite Z.mod_eq by lia. ring.
Qed.

(** A scale enters [np.power(scale, 2)] through its square only, in every
    kind of number. *)
Lemma power_neg (v : number) : np.power (Py.neg v) 2 = np.power v 2.
Proof.
  destruct v as [z | x | z | x]; cbn [Py.neg np.power].
  - f_equal. f_equal. change (Z.of_nat 2) with 2%Z. rewrite !Z.pow_2_r. ring.
  - f_equal. ring.
  - f_equal. change (Z.of_nat 2) with 2%Z. rewrite !Z.pow_2_r.
    destruct (wrap64_spec (- z)) as [k ->].
    replace ((- z + k * 2 ^ 64) * (- z + k * 2 ^ 64))%Z
      with (z * z + (k * (k * 2 ^ 64 - 2 * z)) * 2 ^ 64)%Z by ring.
    apply wrap64_add_mul.
  - f_equal. ring.
Qed.

(** C5, as stated, fails: no update checks its input.  Beta data with
    [trials < successes] and a Normal summary with a negative scale are
    outside the valid domain, and both updates return a pair. *)
Lemma posterior_domain_error_counterexample :
  (~ beta_valid 1 1 5 3
   /\ Beta.posterior [1; 1] [5; 3] = Returned (6, -1))
  /\ (~ normal_valid (Py.value (PyInt 1)) (Py.value (PyInt 1))
        (Py.value (PyInt (-1))) (Py.value (PyInt 1))
      /\ Norm.posterior [PyInt 0; PyInt 1; PyInt 1] [PyInt 1; PyInt (-1); PyInt 1]
         = Returned (NpFloat64 (1 / 2), NpFloat64 (sqrt (1 / 2)))).
Proof.
  split; split.
  - unfold beta_valid. lra.
  - rewrite Beta_posterior_eq. do 2 f_equal; lra.
  - unfold normal_valid. cbn [Py.value]. lra.
  - change (PyInt (-1)) with (Py.neg (PyInt 1)).
    rewrite Norm_posterior_eq, power_neg.
    rewrite power_fits by (cbn; lia). cbn [Py.value].
    replace (1 / (1 / 1 ^ 2 + 1 / 1 ^ 2)) with (1 / 2) by (simpl; field).
    do 3 f_equal. simpl. field.
Qed.

(** C5, amended.  The updates make no domain check: on tuples of the
    required length [Beta.posterior] returns
    [(a_prior + successes, b_prior + trials - successes)] for all numbers,
    valid or not, and [Norm.posterior] returns a pair for all floats and
    all ints of the int64 range, a scale counting through its square only
    (a negative scale gives what its absolute value gives); the only
    error either raises is [IndexError], on a tuple that is too short. *)
Theorem posterior_makes_no_domain_check :
  (forall a_prior b_prior successes trials : R,
      Beta.posterior [a_prior; b_prior] [successes; trials]
      = Returned (a_prior + successes, b_prior + trials - successes))
  /\ (forall loc_p scale_p weight_p loc_d scale_d weight_d : number,
         Forall Py.in_int64
           [loc_p; scale_p; weight_p; loc_d; scale_d; weight_d] ->
         (exists loc scale : number,
             Norm.posterior [loc_p; scale_p; weight_p] [loc_d; scale_d; weight_d]
             = Returned (loc, scale))
         /\ (Py.in_int64 (Py.neg scale_p) ->
             Norm.posterior [loc_p; Py.neg scale_p; weight_p]
               [loc_d; scale_d; weight_d]
             = Norm.posterior [loc_p; scale_p; weight_p]
                 [loc_d; scale_d; weight_d])
         /\ (Py.in_int64 (Py.neg scale_d) ->
             Norm.posterior [loc_p; scale_p; weight_p]
               [loc_d; Py.neg scale_d; weight_d]
             = Norm.posterior [loc_p; scale_p; weight_p]
                 [loc_d; scale_d; weight_d]))
  /\ (forall (prior data : list R) (e : Py.exn),
         Beta.posterior prior data = Raised e -> e = IndexError)
  /\ (forall (prior data : list number) (e : Py.exn),
         Forall Py.in_int64 prior -> Forall Py.in_int64 data ->
         Norm.posterior prior data = Raised e -> e = IndexError).
Proof.
  split; [| split; [| split]].
  - intros. apply Beta_posterior_eq.
  - intros loc_p scale_p weight_p loc_d scale_d weight_d _.
    split; [| split].
    + eexists _, _. apply Norm_posterior_eq.
    + intros _. rewrite !Norm_posterior_eq, power_neg. reflexivity.
    + intros _. rewrite !Norm_posterior_eq, power_neg. reflexivity.
  - intros prior data e H. apply (Beta_posterior_raises prior data e H).
  - intros prior data e _ _ H. apply (Norm_posterior_raises prior data e H).
Qed.

(** ** Moments *)

(** A division whose divisor is not zero returns a float, the quotient. *)
Lemma truediv_value (a b : number) :
  Py.value b <> 0 ->
  exists q : number,
    Py.truediv a b = Returned q
    /\ Py.value q = Py.value a / Py.value b
    /\ Py.is_float q = true.
Proof.
  intros Hb. unfold Py.truediv.
  destruct (Py.is_numpy a || Py.is_numpy b).
  - eexists. repeat split.
  - destruct (Req_dec_T (Py.value b) 0) as [H0 | _]; [contradiction |].
    eexists. repeat split.
Qed.

Lemma power_float (q : number) (k : nat) :
  Py.is_float q = true -> np.power q k = NpFloat64 (Py.value q ^ k).
Proof. destruct q; cbn; intros H; try discriminate; reflexivity. Qed.

Lemma is_numpy_mul_l (a b : number) :
  Py.is_numpy a = true -> Py.is_numpy (Py.mul a b) = true.
Proof.
  intros H. unfold Py.mul, Py.binop, Py.make. rewrite H. cbn [orb].
  destruct (Py.is_float a || Py.is_float b); reflexivity.
Qed.

(** Where it fits, the denominator of the Beta variance is
    [(par1 + par2)² * (par1 + par2 + 1)]. *)
Lemma beta_denominator_value (par1 par2 : number) :
  not_int64 par1 -> not_int64 par2 -> beta_denominator_fits par1 par2 ->
  Py.value (Py.mul (np.power (Py.add par1 par2) 2)
              (Py.add (Py.add par1 par2) (PyInt 1)))
  = (Py.value par1 + Py.value par2) ^ 2 * (Py.value par1 + Py.value par2 + 1).
Proof.
  intros H1 H2. unfold beta_denominator_fits.
  destruct (add_value par1 par2 H1 H2) as [Hv Hn]. rewrite <- Hv.
  destruct (Py.add par1 par2) as [s | x | s | x];
    cbn [not_int64] in Hn; try contradiction; intros Hfit.
  - destruct Hfit as [H0 Hfit].
    cbn. rewrite Z.mul_1_r.
    rewrite (wrap64_small (s * s)) by nia.
    rewrite wrap64_small by nia.
    rewrite !mult_IZR, plus_IZR. ring.
  - cbn. ring.
  - cbn. ring.
Qed.

(** The [log=True] branch of [Beta.moments] where the sum of the
    parameters is not zero. *)
Lemma Beta_moments_log (lib : library) (par1 par2 : number) :
  Py.value par1 + Py.value par2 <> 0 ->
  not_int64 par1 -> not_int64 par2 ->
  exists mean var : number,
    fst (Beta.moments lib par1 par2 true) = Returned (mean, var)
    /\ Py.value mean = Py.value par1 / (Py.value par1 + Py.value par2)
    /\ (beta_denominator_fits par1 par2 ->
        Py.value var
        = Py.value par1 * Py.value par2
          / ((Py.value par1 + Py.value par2) ^ 2
             * (Py.value par1 + Py.value par2 + 1))).
Proof.
  intros Hs H1 H2.
  destruct (add_value par1 par2 H1 H2) as [Hsum _].
  unfold Beta.moments. cbn [fst].
  destruct (truediv_value par1 (Py.add par1 par2)) as (mean & Hmean & Hvm & _);
    [rewrite Hsum; assumption |].
  rewrite Hmean. cbn [Py.bind].
  rewrite truediv_numpy_r by (apply is_numpy_mul_l, is_numpy_power).
  cbn [Py.bind]. eexists _, _. split; [reflexivity |].
  split; [rewrite Hvm, Hsum; reflexivity |].
  intros Hfit. cbn [Py.value].
  rewrite beta_denominator_value, mul_value by assumption. reflexivity.
Qed.




(** Neither branch of [Beta.moments] warns. *)
Lemma Beta_moments_silent (lib : library) (par1 par2 : number) (log : bool) :
  snd (Beta.moments lib par1 par2 log) = [].
Proof. destruct log; reflexivity. Qed.

(** C6, as stated, fails at [par1 = 0]: between two Python scalars the
    division [par2 / par1] raises [ZeroDivisionError], so [moments] with
    [log=True] aborts instead of returning. *)
Lemma Norm_log_moments_counterexample :
  0 < Py.value (PyFloat 1)
  /\ fst (Norm.moments stub_library (PyFloat 0) (PyFloat 1) true)
     = Raised ZeroDivisionError.
Proof.
  split; [cbn [Py.value]; lra |].
  unfold Norm.moments. cbn [fst].
  destruct (truediv_python (PyFloat 1) (PyFloat 0) eq_refl eq_refl) as [H _].
  rewrite H by reflexivity. reflexivity.
Qed.

(** C6, amended.  For Normal parameters with [par2 > 0] and [par1] not 0
    (floats, or ints of the int64 range), [moments] with [log=True]
    returns a pair whether or not it warns: its variance is
    [(par2 / par1)²] and, for [par1 > 0], its mean is [log par1]; with
    [par1 = 0] and both parameters Python scalars it raises
    [ZeroDivisionError].  In every case it emits its warning exactly when
    the probability of a negative value, the Normal cumulative
    distribution function at 0, exceeds [EPSILON = 1e-4]. *)
Theorem Norm_log_moments_warn (lib : library) (par1 par2 : number) :
  0 < Py.value par2 -> Py.in_int64 par1 -> Py.in_int64 par2 ->
  EPSILON = 1 / 10000
  /\ (Py.value par1 <> 0 ->
      exists mean var : number,
        fst (Norm.moments lib par1 par2 true) = Returned (mean, var)
        /\ Py.value var = (Py.value par2 / Py.value par1) ^ 2
        /\ (0 < Py.value par1 -> Py.value mean = ln (Py.value par1)))
  /\ (Py.value par1 = 0 ->
      Py.is_numpy par1 = false -> Py.is_numpy par2 = false ->
      fst (Norm.moments lib par1 par2 true) = Raised ZeroDivisionError)
  /\ (snd (Norm.moments lib par1 par2 true) = [Norm.negative_warning]
      <-> EPSILON < cdf (norm lib) 0 (Py.value par1) (Py.value par2))
  /\ (snd (Norm.moments lib par1 par2 true) = []
      <-> ~ EPSILON < cdf (norm lib) 0 (Py.value par1) (Py.value par2)).
Proof.
  intros _ _ _. split; [reflexivity |]. split; [| split].
  - intros Hp. unfold Norm.moments. cbn [fst].
    destruct (truediv_value par2 par1 Hp) as (q & Hq & Hvq & Hfq).
    rewrite Hq. cbn [Py.bind]. rewrite (power_float q 2 Hfq).
    eexists _, _. split; [reflexivity |].
    cbn [np.log Py.value]. rewrite Hvq. split; reflexivity.
  - intros H0 Hn1 Hn2. unfold Norm.moments. cbn [fst].
    destruct (truediv_python par2 par1 Hn2 Hn1) as [H _].
    rewrite (H H0). reflexivity.
  - unfold Norm.moments. cbn [snd].
    destruct (Rlt_dec EPSILON (cdf (norm lib) 0 (Py.value par1) (Py.value par2)))
      as [Hlt | Hge].
    + split; split; intros H; try reflexivity; try assumption;
        [discriminate | contradiction].
    + split; split; intros H; try reflexivity; try assumption;
        [discriminate | contradiction].
Qed.

Lemma Norm_log_moments_warn_witness :
  EPSILON = 1 / 10000
  /\ (Py.value (PyFloat 3) <> 0 ->
      exists mean var : number,
        fst (Norm.moments stub_library (PyFloat 3) (PyFloat 1) true)
        = Returned (mean, var)
        /\ Py.value var = (Py.value (PyFloat 1) / Py.value (PyFloat 3)) ^ 2
        /\ (0 < Py.value (PyFloat 3) -> Py.value mean = ln (Py.value (PyFloat 3))))
  /\ (Py.value (PyFloat 3) = 0 ->
      Py.is_numpy (PyFloat 3) = false -> Py.is_numpy (PyFloat 1) = false ->
      fst (Norm.moments stub_library (PyFloat 3) (PyFloat 1) true)
      = Raised ZeroDivisionError)
  /\ (snd (Norm.moments stub_library (PyFloat 3) (PyFloat 1) true)
      = [Norm.negative_warning]
      <-> EPSILON < cdf (norm stub_library) 0 (Py.value (PyFloat 3))
                      (Py.value (PyFloat 1)))
  /\ (snd (Norm.moments stub_library (PyFloat 3) (PyFloat 1) true) = []
      <-> ~ EPSILON < cdf (norm stub_library) 0 (Py.value (PyFloat 3))
                        (Py.value (PyFloat 1))).
Proof.
  apply (Norm_log_moments_warn stub_library (PyFloat 3) (PyFloat 1));
    cbn; try lra; exact I.
Defined.

(** ** Truncation, sums and broadcasting *)

Lemma Py_int_IZR (k : Z) : Py.int (IZR k) = k.
Proof.
  unfold Py.int. destruct (Rle_dec 0 (IZR k)) as [_ | _].
  - symmetry. apply Int_part_spec. lra.
  - rewrite <- opp_IZR.
    rewrite <- (Int_part_spec (IZR (- k)) (- k)) by lra. lia.
Qed.

Lemma Py_int_trunc (x : R) :
  0 <= x -> IZR (Py.int x) <= x < IZR (Py.int x) + 1.
Proof.
  intros Hx. unfold Py.int. destruct (Rle_dec 0 x) as [_ | Hn]; [| contradiction].
  destruct (base_Int_part x). lra.
Qed.

Lemma Py_int_positive (x : R) : 1 <= x -> (1 <= Py.int x)%Z.
Proof.
  intros Hx. destruct (Py_int_trunc x) as [_ Hlt]; [lra |].
  assert (H0 : (0 < Py.int x)%Z) by (apply lt_IZR; lra). lia.
Qed.

Lemma fold_left_Rplus_acc (l : list R) (a : R) :
  fold_left Rplus l a = a + fold_left Rplus l 0.
Proof.
  revert a. induction l as [|x l IH]; intros a; simpl.
  - lra.
  - rewrite (IH (a + x)), (IH (0 + x)). lra.
Qed.

Lemma Py_sum_cons (x : R) (l : list R) : Py.sum (x :: l) = x + Py.sum l.
Proof.
  unfold Py.sum. simpl. rewrite fold_left_Rplus_acc. lra.
Qed.

Lemma Py_sum_scaled (ws : list R) (m : R) :
  Py.sum (map (fun w => w / m) ws) = Py.sum ws / m.
Proof.
  induction ws as [|w ws IH].
  - unfold Py.sum; simpl. unfold Rdiv. lra.
  - cbn [map]. rewrite !Py_sum_cons, IH. unfold Rdiv. lra.
Qed.

Lemma broadcast_same_length (f : R -> R -> R) (xs ys : list R) :
  length xs = length ys -> np.broadcast f xs ys = Returned (np.map2 f xs ys).
Proof.
  intros H. unfold np.broadcast. rewrite H, Nat.eqb_refl. reflexivity.
Qed.

Lemma map2_length (f : R -> R -> R) (xs ys : list R) :
  length xs = length ys -> length (np.map2 f xs ys) = length xs.
Proof.
  revert ys. induction xs as [|x xs IH]; intros [|y ys] H; simpl in *;
    try discriminate; auto.
Qed.

(** The sum numpy forms, [sum(nodes * F(nodes) * weights)], is the sum of
    the specification taken term by term. *)
Lemma sum_of_products (F : R -> R) (nodes weights : list R) :
  Py.sum (np.map2 Rmult (np.map2 Rmult nodes (map F nodes)) weights)
  = quadrature_sum F nodes weights.
Proof.
  revert weights. induction nodes as [|x nodes IH]; intros [|w weights];
    try reflexivity.
  cbn [map np.map2 quadrature_sum]. rewrite Py_sum_cons, IH. reflexivity.
Qed.

Lemma weighted_terms (d : rv_continuous) (nodes weights : list R) (par1 par2 : R) :
  length nodes = length weights ->
  exists terms : list R,
    (ta <- np.multiply nodes (cdf_array d nodes par1 par2) ;;
     np.multiply ta weights) = Returned terms
    /\ Py.sum terms = quadrature_sum (fun x => cdf d x par1 par2) nodes weights.
Proof.
  intros Hlen. unfold np.multiply, cdf_array.
  rewrite broadcast_same_length by (rewrite length_map; reflexivity).
  cbn [Py.bind].
  rewrite broadcast_same_length
    by (rewrite map2_length; [assumption | rewrite length_map; reflexivity]).
  eexists. split; [reflexivity | apply sum_of_products].
Qed.

(** ** Quadrature rules *)

Lemma Norm_gq_rule (lib : library) (n par1 par2 : R) :
  hermitenorm_rule lib -> 1 <= n ->
  exists nodes weights : list R,
    Norm.gq lib n par1 par2 = Returned (nodes, weights)
    /\ length nodes = Z.to_nat (Py.int n)
    /\ length weights = Z.to_nat (Py.int n)
    /\ Py.sum weights = 1.
Proof.
  intros Hrule Hn.
  destruct (Hrule (Py.int n) (Py_int_positive n Hn))
    as (x & w & m & Hroots & Hx & Hw & Hsum & Hm).
  unfold Norm.gq. rewrite Hroots. cbn [Py.bind].
  eexists _, _. split; [reflexivity |].
  rewrite !length_map, Py_sum_scaled, Hsum.
  repeat split; try assumption. field. assumption.
Qed.

Lemma Beta_gq_rule (lib : library) (n par1 par2 : R) :
  sh_jacobi_rule lib -> 1 <= n -> 0 < par1 -> 0 < par2 ->
  exists nodes weights : list R,
    Beta.gq lib n par1 par2 = Returned (nodes, weights)
    /\ length nodes = Z.to_nat (Py.int n)
    /\ length weights = Z.to_nat (Py.int n)
    /\ Py.sum weights = 1.
Proof.
  intros Hrule Hn H1 H2.
  destruct (Hrule (Py.int n) (par1 + par2 - 1) par1 (Py_int_positive n Hn))
    as (x & w & Hroots & Hx & Hw & Hsum); try lra.
  unfold Beta.gq. rewrite Hroots. cbn [Py.bind].
  eexists _, _. repeat split; assumption.
Qed.

(** The stub library honours both contracts. *)
Lemma repeat_sum (c : R) (k : nat) : Py.sum (repeat c k) = INR k * c.
Proof.
  induction k as [|k IH].
  - unfold Py.sum; simpl. lra.
  - cbn [repeat]. rewrite Py_sum_cons, IH, S_INR. lra.
Qed.

Lemma stub_hermitenorm_rule : hermitenorm_rule stub_library.
Proof.
  intros n Hn. cbn.
  destruct (Z.ltb_spec n 1) as [Hlt | _]; [lia |].
  eexists _, _, _. split; [reflexivity |].
  rewrite !repeat_length, repeat_sum, INR_IZR_INZ, Z2Nat.id by lia.
  repeat split; try lra.
  apply not_0_IZR. lia.
Qed.

Lemma stub_sh_jacobi_rule : sh_jacobi_rule stub_library.
Proof.
  intros n p1 q1 Hn _ _. cbn.
  destruct (Z.ltb_spec n 1) as [Hlt | _]; [lia |].
  eexists _, _. split; [reflexivity |].
  rewrite !repeat_length, repeat_sum, INR_IZR_INZ, Z2Nat.id by lia.
  repeat split. field. apply not_0_IZR. lia.
Qed.

(** C9.  Under the contracts of the two rule generators, for an order
    [n >= 1] and valid parameters, [gq] of either family returns exactly
    [int(n)] nodes and [int(n)] weights, where [int(n)] is [n] when [n] is
    an integer and its integer part otherwise, and the returned weights
    sum to 1. *)
Theorem gq_returns_n_nodes_and_weights (lib : library) (n par1 par2 : R) :
  hermitenorm_rule lib -> sh_jacobi_rule lib -> 1 <= n -> 0 < par2 ->
  (forall k : Z, n = IZR k -> Py.int n = k)
  /\ IZR (Py.int n) <= n < IZR (Py.int n) + 1
  /\ (exists nodes weights : list R,
         Norm.gq lib n par1 par2 = Returned (nodes, weights)
         /\ length nodes = Z.to_nat (Py.int n)
         /\ length weights = Z.to_nat (Py.int n)
         /\ Py.sum weights = 1)
  /\ (0 < par1 ->
      exists nodes weights : list R,
        Beta.gq lib n par1 par2 = Returned (nodes, weights)
        /\ length nodes = Z.to_nat (Py.int n)
        /\ length weights = Z.to_nat (Py.int n)
        /\ Py.sum weights = 1).
Proof.
  intros Hh Hj Hn H2. split; [| split; [| split]].
  - intros k ->. apply Py_int_IZR.
  - apply Py_int_trunc. lra.
  - apply Norm_gq_rule; assumption.
  - intros H1. apply Beta_gq_rule; assumption.
Qed.

Lemma gq_returns_n_nodes_and_weights_witness :
  (forall k : Z, 5 / 2 = IZR k -> Py.int (5 / 2) = k)
  /\ IZR (Py.int (5 / 2)) <= 5 / 2 < IZR (Py.int (5 / 2)) + 1
  /\ (exists nodes weights : list R,
         Norm.gq stub_library (5 / 2) 1 3 = Returned (nodes, weights)
         /\ length nodes = Z.to_nat (Py.int (5 / 2))
         /\ length weights = Z.to_nat (Py.int (5 / 2))
         /\ Py.sum weights = 1)
  /\ (0 < 1 ->
      exists nodes weights : list R,
        Beta.gq stub_library (5 / 2) 1 3 = Returned (nodes, weights)
        /\ length nodes = Z.to_nat (Py.int (5 / 2))
        /\ length weights = Z.to_nat (Py.int (5 / 2))
        /\ Py.sum weights = 1).
Proof.
  apply (gq_returns_n_nodes_and_weights stub_library (5 / 2) 1 3
           stub_hermitenorm_rule stub_sh_jacobi_rule); lra.
Defined.

(** ** Risk *)

Lemma mean_array_pair (d : rv_continuous) (a_par1 a_par2 b_par1 b_par2 : R) :
  mean_array d [a_par1; b_par1] [a_par2; b_par2]
  = Returned [mean d a_par1 a_par2; mean d b_par1 b_par2].
Proof. reflexivity. Qed.

(** Whatever [risk] returns has two components, both a difference from one
    number. *)
Lemma risk_shape (cls : BayesABDist.t) (a_par1 a_par2 b_par1 b_par2 n : R)
    (out : list R) :
  BayesABDist.risk cls a_par1 a_par2 b_par1 b_par2 n = Returned out ->
  exists est : R,
    out = [est - mean (BayesABDist.dist cls) a_par1 a_par2;
           est - mean (BayesABDist.dist cls) b_par1 b_par2].
Proof.
  unfold BayesABDist.risk.
  destruct (BayesABDist.gq cls n a_par1 a_par2) as [[nodes_a weights_a] | e];
    cbn [Py.bind]; [| discriminate].
  destruct (BayesABDist.gq cls n b_par1 b_par2) as [[nodes_b weights_b] | e];
    cbn [Py.bind]; [| discriminate].
  destruct (np.multiply nodes_a _) as [ta | e]; cbn [Py.bind]; [| discriminate].
  destruct (np.multiply ta weights_a) as [ta' | e]; cbn [Py.bind]; [| discriminate].
  destruct (np.multiply nodes_b _) as [tb | e]; cbn [Py.bind]; [| discriminate].
  destruct (np.multiply tb weights_b) as [tb' | e]; cbn [Py.bind]; [| discriminate].
  rewrite mean_array_pair. cbn [Py.bind map].
  intros H. injection H as <-. eexists. reflexivity.
Qed.

(** What [risk] computes once both rules are known. *)
Lemma risk_after_rules (d : rv_continuous) (a_par1 a_par2 b_par1 b_par2 : R)
    (nodes_A weights_A nodes_B weights_B : list R) :
  length nodes_A = length weights_A ->
  length nodes_B = length weights_B ->
  (ta <- np.multiply nodes_A (cdf_array d nodes_A b_par1 b_par2) ;;
   ta <- np.multiply ta weights_A ;;
   tb <- np.multiply nodes_B (cdf_array d nodes_B a_par1 a_par2) ;;
   tb <- np.multiply tb weights_B ;;
   means <- mean_array d [a_par1; b_par1] [a_par2; b_par2] ;;
   Returned (map (fun m => Py.sum ta + Py.sum tb - m) means))
  = Returned
      [gq_est d a_par1 a_par2 b_par1 b_par2 nodes_A weights_A nodes_B weights_B
       - mean d a_par1 a_par2;
       gq_est d a_par1 a_par2 b_par1 b_par2 nodes_A weights_A nodes_B weights_B
       - mean d b_par1 b_par2].
Proof.
  intros HlenA HlenB.
  destruct (weighted_terms d nodes_A weights_A b_par1 b_par2 HlenA)
    as (ta & Hta & HsumA).
  destruct (weighted_terms d nodes_B weights_B a_par1 a_par2 HlenB)
    as (tb & Htb & HsumB).
  destruct (np.multiply nodes_A (cdf_array d nodes_A b_par1 b_par2)) as [ta0 | e];
    cbn [Py.bind] in Hta |- *; [| discriminate].
  rewrite Hta. cbn [Py.bind].
  destruct (np.multiply nodes_B (cdf_array d nodes_B a_par1 a_par2)) as [tb0 | e];
    cbn [Py.bind] in Htb |- *; [| discriminate].
  rewrite Htb. cbn [Py.bind].
  rewrite mean_array_pair. cbn [Py.bind map].
  unfold gq_est. rewrite HsumA, HsumB. reflexivity.
Qed.

(** C1.  For every family, all parameters and every order [n] at which
    [gq] returns the rules [(nodes_A, weights_A)] and [(nodes_B, weights_B)]
    (each with as many weights as nodes), [risk] returns
    [(gq_est - mean_A, gq_est - mean_B)] where
    [gq_est = Σ nodes_A·CDF_B(nodes_A)·weights_A
            + Σ nodes_B·CDF_A(nodes_B)·weights_B]
    and [mean_A], [mean_B] are the family's means at the two arms'
    parameters. *)
Theorem risk_is_quadrature_minus_means
    (cls : BayesABDist.t) (a_par1 a_par2 b_par1 b_par2 n : R)
    (nodes_A weights_A nodes_B weights_B : list R) :
  BayesABDist.gq cls n a_par1 a_par2 = Returned (nodes_A, weights_A) ->
  BayesABDist.gq cls n b_par1 b_par2 = Returned (nodes_B, weights_B) ->
  length nodes_A = length weights_A ->
  length nodes_B = length weights_B ->
  let d := BayesABDist.dist cls in
  let est := gq_est d a_par1 a_par2 b_par1 b_par2
               nodes_A weights_A nodes_B weights_B in
  BayesABDist.risk cls a_par1 a_par2 b_par1 b_par2 n
  = Returned [est - mean d a_par1 a_par2; est - mean d b_par1 b_par2].
Proof.
  intros Ha Hb HlenA HlenB d est.
  enter_risk Ha Hb.
  apply risk_after_rules; assumption.
Qed.

Lemma stub_Norm_gq (par1 par2 : R) :
  Norm.gq stub_library 2 par1 par2
  = Returned ([par2 * 0 + par1; par2 * 0 + par1], [1 / 2; 1 / 2]).
Proof.
  unfold Norm.gq. rewrite Py_int_IZR. reflexivity.
Qed.

Lemma risk_is_quadrature_minus_means_witness :
  let d := norm stub_library in
  let est := gq_est d 0 1 3 2 [1 * 0 + 0; 1 * 0 + 0] [1 / 2; 1 / 2]
               [2 * 0 + 3; 2 * 0 + 3] [1 / 2; 1 / 2] in
  BayesABDist.risk (Norm.cls stub_library) 0 1 3 2 2
  = Returned [est - mean d 0 1; est - mean d 3 2].
Proof.
  apply (risk_is_quadrature_minus_means (Norm.cls stub_library) 0 1 3 2 2
           [1 * 0 + 0; 1 * 0 + 0] [1 / 2; 1 / 2]
           [2 * 0 + 3; 2 * 0 + 3] [1 / 2; 1 / 2]);
    try reflexivity; apply stub_Norm_gq.
Defined.

(** Under the generators' contracts [risk] is defined on both families at
    every order [n >= 1] and all valid parameters, and has the value C1
    states. *)
Lemma risk_defined_on_families (lib : library) (cls : BayesABDist.t)
    (a_par1 a_par2 b_par1 b_par2 n : R) :
  hermitenorm_rule lib -> sh_jacobi_rule lib ->
  (cls = Norm.cls lib
   \/ cls = Beta.cls lib /\ 0 < a_par1 /\ 0 < a_par2 /\ 0 < b_par1 /\ 0 < b_par2) ->
  1 <= n ->
  exists nodes_A weights_A nodes_B weights_B : list R,
    BayesABDist.gq cls n a_par1 a_par2 = Returned (nodes_A, weights_A)
    /\ BayesABDist.gq cls n b_par1 b_par2 = Returned (nodes_B, weights_B)
    /\ BayesABDist.risk cls a_par1 a_par2 b_par1 b_par2 n
       = Returned
           [gq_est (BayesABDist.dist cls) a_par1 a_par2 b_par1 b_par2
              nodes_A weights_A nodes_B weights_B
            - mean (BayesABDist.dist cls) a_par1 a_par2;
            gq_est (BayesABDist.dist cls) a_par1 a_par2 b_par1 b_par2
              nodes_A weights_A nodes_B weights_B
            - mean (BayesABDist.dist cls) b_par1 b_par2].
Proof.
  intros Hh Hj Hcls Hn.
  assert (Hgq : forall par1 par2,
             (cls = Norm.cls lib \/ cls = Beta.cls lib /\ 0 < par1 /\ 0 < par2) ->
             exists nodes weights,
               BayesABDist.gq cls n par1 par2 = Returned (nodes, weights)
               /\ length nodes = length weights).
  { intros par1 par2 [-> | (-> & H1 & H2)]; cbn [BayesABDist.gq Norm.cls Beta.cls].
    - destruct (Norm_gq_rule lib n par1 par2 Hh Hn) as (x & w & H & Hx & Hw & _).
      exists x, w. split; [assumption | congruence].
    - destruct (Beta_gq_rule lib n par1 par2 Hj Hn H1 H2) as (x & w & H & Hx & Hw & _).
      exists x, w. split; [assumption | congruence]. }
  destruct (Hgq a_par1 a_par2) as (nodes_A & weights_A & Ha & HlenA);
    [destruct Hcls as [? | (? & ? & ? & ? & ?)]; auto |].
  destruct (Hgq b_par1 b_par2) as (nodes_B & weights_B & Hb & HlenB);
    [destruct Hcls as [? | (? & ? & ? & ? & ?)]; auto |].
  exists nodes_A, weights_A, nodes_B, weights_B.
  split; [assumption |]. split; [assumption |].
  enter_risk Ha Hb.
  apply risk_after_rules; assumption.
Qed.

(** C10.  Whenever [risk] is defined, its two components differ by the
    difference of the arms' means, [risk_A - risk_B = mean_B - mean_A];
    when both arms have the same parameters the two components are
    equal. *)
Theorem risk_components_differ_by_means
    (cls : BayesABDist.t) (a_par1 a_par2 b_par1 b_par2 n : R) (out : list R) :
  BayesABDist.risk cls a_par1 a_par2 b_par1 b_par2 n = Returned out ->
  exists risk_A risk_B : R,
    out = [risk_A; risk_B]
    /\ risk_A - risk_B
       = mean (BayesABDist.dist cls) b_par1 b_par2
         - mean (BayesABDist.dist cls) a_par1 a_par2
    /\ ((a_par1, a_par2) = (b_par1, b_par2) -> risk_A = risk_B).
Proof.
  intros H. destruct (risk_shape _ _ _ _ _ _ _ H) as [est ->].
  eexists _, _. split; [reflexivity |]. split; [ring |].
  intros Heq. injection Heq as -> ->. reflexivity.
Qed.

Lemma stub_Norm_risk :
  BayesABDist.risk (Norm.cls stub_library) 0 1 3 2 2
  = Returned
      [gq_est (norm stub_library) 0 1 3 2 [1 * 0 + 0; 1 * 0 + 0] [1 / 2; 1 / 2]
         [2 * 0 + 3; 2 * 0 + 3] [1 / 2; 1 / 2] - 0;
       gq_est (norm stub_library) 0 1 3 2 [1 * 0 + 0; 1 * 0 + 0] [1 / 2; 1 / 2]
         [2 * 0 + 3; 2 * 0 + 3] [1 / 2; 1 / 2] - 3].
Proof.
  unfold BayesABDist.risk. cbn [BayesABDist.gq Norm.cls].
  rewrite !stub_Norm_gq. cbn [Py.bind].
  apply (risk_after_rules (norm stub_library) 0 1 3 2); reflexivity.
Qed.

Lemma risk_components_differ_by_means_witness :
  exists risk_A risk_B : R,
    [gq_est (norm stub_library) 0 1 3 2 [1 * 0 + 0; 1 * 0 + 0] [1 / 2; 1 / 2]
       [2 * 0 + 3; 2 * 0 + 3] [1 / 2; 1 / 2] - 0;
     gq_est (norm stub_library) 0 1 3 2 [1 * 0 + 0; 1 * 0 + 0] [1 / 2; 1 / 2]
       [2 * 0 + 3; 2 * 0 + 3] [1 / 2; 1 / 2] - 3]
    = [risk_A; risk_B]
    /\ risk_A - risk_B
       = mean (BayesABDist.dist (Norm.cls stub_library)) 3 2
         - mean (BayesABDist.dist (Norm.cls stub_library)) 0 1
    /\ ((0, 1) = (3, 2) -> risk_A = risk_B).
Proof.
  apply (risk_components_differ_by_means (Norm.cls stub_library) 0 1 3 2 2).
  apply stub_Norm_risk.
Defined.

(** * Further properties of the module *)

(** ** Tuples that are too short *)

Lemma Beta_posterior_short (prior data : list R) :
  (length prior < 2 \/ length data < 2)%nat ->
  Beta.posterior prior data = Raised IndexError.
Proof.
  destruct prior as [|a [|b prior]]; destruct data as [|s [|t data]];
    cbn; intros [H | H]; try reflexivity; lia.
Qed.

(** Runs [Norm.posterior] on tuples given by their entries. *)
Ltac run_Norm_posterior :=
  unfold Norm.posterior; cbn [Py.getitem nth_error Py.bind];
  rewrite ?truediv_numpy_r by apply is_numpy_power;
  cbn [Py.getitem nth_error Py.bind].

Lemma Norm_posterior_short (prior data : list number) :
  (length prior < 3 \/ length data < 3)%nat ->
  Norm.posterior prior data = Raised IndexError.
Proof.
  destruct prior as [|lp [|sp [|wp prior]]];
    destruct data as [|ld [|sd [|wd data]]];
    cbn [length]; intros [H | H]; try lia; run_Norm_posterior; reflexivity.
Qed.

(** X1.  [Beta.posterior] raises [IndexError] exactly when the prior or the
    data has fewer than two entries, and [Norm.posterior] exactly when one
    of them has fewer than three; on longer tuples both return, reading
    the first two (three) entries only. *)
Theorem posterior_index_error
    (prior data : list R) (normal_prior normal_data : list number) :
  (Beta.posterior prior data = Raised IndexError
   <-> (length prior < 2 \/ length data < 2)%nat)
  /\ (Norm.posterior normal_prior normal_data = Raised IndexError
      <-> (length normal_prior < 3 \/ length normal_data < 3)%nat)
  /\ (Beta.posterior prior data
      = Beta.posterior (firstn 2 prior) (firstn 2 data))
  /\ (Norm.posterior normal_prior normal_data
      = Norm.posterior (firstn 3 normal_prior) (firstn 3 normal_data)).
Proof.
  split; [| split; [| split]].
  - split; [apply Beta_posterior_raises | apply Beta_posterior_short].
  - split; [apply Norm_posterior_raises | apply Norm_posterior_short].
  - destruct prior as [|a [|b prior]]; destruct data as [|s [|t data]];
      reflexivity.
  - destruct normal_prior as [|lp [|sp [|wp normal_prior]]];
      destruct normal_data as [|ld [|sd [|wd normal_data]]];
      cbn [firstn]; try reflexivity;
      rewrite ?Norm_posterior_eq; try reflexivity;
      run_Norm_posterior; reflexivity.
Qed.

(** ** Beta updates compose *)

(** X2.  Updating a Beta prior with one data summary and the result with a
    second one gives what one update with the pooled summary (successes and
    trials added) gives; so the order of two updates does not matter, and
    each update raises the sum of the two parameters by the trials. *)
Theorem Beta_posterior_pools (a_prior b_prior s1 t1 s2 t2 : R) :
  exists a1 b1 a2 b2 : R,
    Beta.posterior [a_prior; b_prior] [s1; t1] = Returned (a1, b1)
    /\ Beta.posterior [a1; b1] [s2; t2] = Returned (a2, b2)
    /\ Beta.posterior [a_prior; b_prior] [s1 + s2; t1 + t2] = Returned (a2, b2)
    /\ a2 + b2 = a_prior + b_prior + (t1 + t2).
Proof.
  exists (a_prior + s1), (b_prior + t1 - s1),
    (a_prior + (s1 + s2)), (b_prior + (t1 + t2) - (s1 + s2)).
  rewrite !Beta_posterior_eq.
  repeat split; try reflexivity; try lra.
  do 2 f_equal; lra.
Qed.

(** ** Ordinary Beta moments *)

Lemma frac_le (A B C D : R) :
  0 < B -> 0 < D -> A * D <= C * B -> A / B <= C / D.
Proof.
  intros HB HD H.
  apply Rmult_le_reg_r with (r := B * D); [nra |].
  replace (A / B * (B * D)) with (A * D) by (field; lra).
  replace (C / D * (B * D)) with (C * B) by (field; lra).
  assumption.
Qed.

Lemma frac_lt (A B C D : R) :
  0 < B -> 0 < D -> A * D < C * B -> A / B < C / D.
Proof.
  intros HB HD H.
  apply Rmult_lt_reg_r with (r := B * D); [nra |].
  replace (A / B * (B * D)) with (A * D) by (field; lra).
  replace (C / D * (B * D)) with (C * B) by (field; lra).
  assumption.
Qed.

Lemma add_comm (a b : number) : Py.add a b = Py.add b a.
Proof.
  unfold Py.add, Py.binop.
  rewrite (orb_comm (Py.is_numpy a)), (orb_comm (Py.is_float a)).
  rewrite (Rplus_comm (Py.value a)), (Z.add_comm (Py.int_value a)).
  reflexivity.
Qed.

(** X3.  For [par1, par2 > 0], floats or Python ints whose int64
    denominator [(par1+par2)² * (par1+par2+1)] stays below [2^63], the
    [log=True] branch of [Beta.moments] returns a mean strictly between 0
    and 1 and a strictly positive variance equal to
    [mean * (1 - mean) / (par1 + par2 + 1)], hence below [1/4]; exchanging
    the two parameters turns the mean into [1 - mean] and leaves the
    variance unchanged. *)
Theorem Beta_moments_ordinary_range (lib : library) (par1 par2 : number) :
  0 < Py.value par1 -> 0 < Py.value par2 ->
  not_int64 par1 -> not_int64 par2 -> beta_denominator_fits par1 par2 ->
  exists mean var mean' var' : number,
    fst (Beta.moments lib par1 par2 true) = Returned (mean, var)
    /\ 0 < Py.value mean < 1
    /\ 0 < Py.value var < 1 / 4
    /\ Py.value var
       = Py.value mean * (1 - Py.value mean)
         / (Py.value par1 + Py.value par2 + 1)
    /\ fst (Beta.moments lib par2 par1 true) = Returned (mean', var')
    /\ Py.value mean' = 1 - Py.value mean
    /\ Py.value var' = Py.value var.
Proof.
  intros Hp1 Hp2 H1 H2 Hfit.
  assert (Hfit' : beta_denominator_fits par2 par1)
    by (unfold beta_denominator_fits in *; rewrite add_comm; exact Hfit).
  destruct (Beta_moments_log lib par1 par2) as (mean & var & Hm & Hmean & Hvar);
    [lra | assumption | assumption |].
  destruct (Beta_moments_log lib par2 par1) as (mean' & var' & Hm' & Hmean' & Hvar');
    [lra | assumption | assumption |].
  specialize (Hvar Hfit). specialize (Hvar' Hfit').
  exists mean, var, mean', var'.
  set (p1 := Py.value par1) in *. set (p2 := Py.value par2) in *.
  assert (Hs : 0 < p1 + p2) by lra.
  assert (Hrange : 0 < p1 / (p1 + p2) < 1).
  { split.
    - apply Rdiv_lt_0_compat; lra.
    - replace 1 with (1 / 1) at 1 by field. apply frac_lt; lra. }
  assert (Hv : p1 * p2 / ((p1 + p2) ^ 2 * (p1 + p2 + 1))
               = p1 / (p1 + p2) * (1 - p1 / (p1 + p2)) / (p1 + p2 + 1))
    by (field; split; lra).
  rewrite Hmean, Hvar, Hmean', Hvar'.
  split; [exact Hm |]. split; [exact Hrange |]. split; [| split; [exact Hv |]].
  - rewrite Hv. set (m := p1 / (p1 + p2)) in *.
    assert (Hpos : 0 < m * (1 - m)) by (apply Rmult_lt_0_compat; lra).
    assert (Hq : m * (1 - m) <= 1 / 4)
      by (pose proof (pow2_ge_0 (m - 1 / 2)); nra).
    split.
    + apply Rdiv_lt_0_compat; lra.
    + apply Rlt_le_trans with (m * (1 - m)); [| lra].
      apply Rmult_lt_reg_r with (r := p1 + p2 + 1); [lra |].
      unfold Rdiv. rewrite Rmult_assoc, Rinv_l by lra. nra.
  - split; [exact Hm' |]. split; field; repeat split; lra.
Qed.

Lemma Beta_moments_ordinary_range_witness :
  exists mean var mean' var' : number,
    fst (Beta.moments stub_library (PyInt 51) (PyFloat 49) true)
    = Returned (mean, var)
    /\ 0 < Py.value mean < 1
    /\ 0 < Py.value var < 1 / 4
    /\ Py.value var
       = Py.value mean * (1 - Py.value mean)
         / (Py.value (PyInt 51) + Py.value (PyFloat 49) + 1)
    /\ fst (Beta.moments stub_library (PyFloat 49) (PyInt 51) true)
       = Returned (mean', var')
    /\ Py.value mean' = 1 - Py.value mean
    /\ Py.value var' = Py.value var.
Proof.
  apply (Beta_moments_ordinary_range stub_library (PyInt 51) (PyFloat 49));
    cbn; try lra; exact I.
Defined.

(** X4.  The ordinary mean ([moments] with [log=True]) of a Beta posterior
    is [(a_prior + successes) / (a_prior + b_prior + trials)]; with a valid
    prior and at least one trial it lies between the prior's mean
    [a_prior / (a_prior + b_prior)] and the observed rate
    [successes / trials].  The posterior's parameters enter [moments] as
    the floats or Python ints [Beta.posterior] returned: [moments] returns
    while the int64 denominator of its variance stays below [2^63], and
    whenever it returns the mean is the one stated. *)
Theorem Beta_posterior_mean_between
    (lib : library) (a_prior b_prior successes trials : R) :
  0 < a_prior -> 0 < b_prior -> 0 <= successes -> successes <= trials ->
  0 < trials ->
  exists a b : R,
    Beta.posterior [a_prior; b_prior] [successes; trials] = Returned (a, b)
    /\ forall par1 par2 : number,
         not_int64 par1 -> not_int64 par2 ->
         Py.value par1 = a -> Py.value par2 = b ->
         (beta_denominator_fits par1 par2 ->
          exists mean var : number,
            fst (Beta.moments lib par1 par2 true) = Returned (mean, var))
         /\ forall mean var : number,
              fst (Beta.moments lib par1 par2 true) = Returned (mean, var) ->
              Py.value mean
              = (a_prior + successes) / (a_prior + b_prior + trials)
              /\ Rmin (a_prior / (a_prior + b_prior)) (successes / trials)
                 <= Py.value mean
                 <= Rmax (a_prior / (a_prior + b_prior)) (successes / trials).
Proof.
  intros Ha Hb Hs Hst Ht.
  eexists _, _. split; [apply Beta_posterior_eq |].
  intros par1 par2 H1 H2 Hv1 Hv2.
  destruct (Beta_moments_log lib par1 par2) as (mean & var & Hm & Hmean & _);
    [rewrite Hv1, Hv2; lra | assumption | assumption |].
  split; [intros _; exists mean, var; exact Hm |].
  intros mean0 var0 Hm0. rewrite Hm in Hm0.
  injection Hm0 as <- <-.
  rewrite Hmean, Hv1, Hv2.
  replace (a_prior + successes + (b_prior + trials - successes))
    with (a_prior + b_prior + trials) by ring.
  split; [reflexivity |].
  destruct (Rle_dec (a_prior * trials) (successes * (a_prior + b_prior)))
    as [Hle | Hgt].
  - split.
    + apply Rle_trans with (a_prior / (a_prior + b_prior)); [apply Rmin_l |].
      apply frac_le; nra.
    + apply Rle_trans with (successes / trials); [| apply Rmax_r].
      apply frac_le; nra.
  - split.
    + apply Rle_trans with (successes / trials); [apply Rmin_r |].
      apply frac_le; nra.
    + apply Rle_trans with (a_prior / (a_prior + b_prior)); [| apply Rmax_l].
      apply frac_le; nra.
Qed.

Lemma Beta_posterior_mean_between_witness :
  exists a b : R,
    Beta.posterior [1; 1] [50; 100] = Returned (a, b)
    /\ forall par1 par2 : number,
         not_int64 par1 -> not_int64 par2 ->
         Py.value par1 = a -> Py.value par2 = b ->
         (beta_denominator_fits par1 par2 ->
          exists mean var : number,
            fst (Beta.moments stub_library par1 par2 true)
            = Returned (mean, var))
         /\ forall mean var : number,
              fst (Beta.moments stub_library par1 par2 true)
              = Returned (mean, var) ->
              Py.value mean = (1 + 50) / (1 + 1 + 100)
              /\ Rmin (1 / (1 + 1)) (50 / 100)
                 <= Py.value mean
                 <= Rmax (1 / (1 + 1)) (50 / 100).
Proof.
  apply (Beta_posterior_mean_between stub_library 1 1 50 100); lra.
Defined.

(** ** Normal updates *)

(** X5.  [Norm.posterior] treats its two arguments alike: exchanging the
    prior and the data gives the same result, a returned pair or the same
    error. *)
Theorem Norm_posterior_symmetric (prior data : list number) :
  Norm.posterior prior data = Norm.posterior data prior.
Proof.
  destruct prior as [|lp [|sp [|wp prior]]];
    destruct data as [|ld [|sd [|wd data]]];
    try (run_Norm_posterior; reflexivity).
  rewrite !Norm_posterior_eq.
  rewrite (Rplus_comm (Py.value wd / Py.value (np.power sd 2))).
  do 3 f_equal. ring.
Qed.

(** X6.  For positive scales and weights, given as floats or as ints in
    the int64 range whose scales have squares below [2^63], the updated
    scale is strictly positive and the updated location lies between the
    prior's and the data's locations. *)
Theorem Norm_posterior_between
    (loc_p scale_p weight_p loc_d scale_d weight_d : number) :
  0 < Py.value scale_p -> 0 < Py.value weight_p ->
  0 < Py.value scale_d -> 0 < Py.value weight_d ->
  summary_fits loc_p scale_p weight_p -> summary_fits loc_d scale_d weight_d ->
  exists loc scale : number,
    Norm.posterior [loc_p; scale_p; weight_p] [loc_d; scale_d; weight_d]
    = Returned (loc, scale)
    /\ 0 < Py.value scale
    /\ Rmin (Py.value loc_p) (Py.value loc_d) <= Py.value loc
       <= Rmax (Py.value loc_p) (Py.value loc_d).
Proof.
  intros Hsp Hwp Hsd Hwd (_ & Hfp & _) (_ & Hfd & _).
  eexists _, _. split; [apply Norm_posterior_fits; assumption |].
  cbn [Py.value].
  pose proof (inv_var_pos _ _ Hsp Hwp) as HA.
  pose proof (inv_var_pos _ _ Hsd Hwd) as HB.
  set (A := inv_var (Py.value scale_p) (Py.value weight_p)) in *.
  set (B := inv_var (Py.value scale_d) (Py.value weight_d)) in *.
  set (lp := Py.value loc_p). set (ld := Py.value loc_d).
  split.
  - apply sqrt_lt_R0, Rdiv_lt_0_compat; lra.
  - replace (1 / (A + B) * (A * lp + B * ld))
      with ((A * lp + B * ld) / (A + B)) by (field; lra).
    destruct (Rle_dec lp ld) as [Hle | Hgt].
    + rewrite Rmin_left, Rmax_right by lra. split.
      * replace lp with (lp / 1) at 1 by field. apply frac_le; nra.
      * replace ld with (ld / 1) at 2 by field. apply frac_le; nra.
    + rewrite Rmin_right, Rmax_left by lra. split.
      * replace ld with (ld / 1) at 1 by field. apply frac_le; nra.
      * replace lp with (lp / 1) at 2 by field. apply frac_le; nra.
Qed.

Lemma Norm_posterior_between_witness :
  exists loc scale : number,
    Norm.posterior [PyInt 0; PyInt 1; PyInt 1] [PyFloat 1; PyFloat 1; PyInt 1]
    = Returned (loc, scale)
    /\ 0 < Py.value scale
    /\ Rmin (Py.value (PyInt 0)) (Py.value (PyFloat 1)) <= Py.value loc
       <= Rmax (Py.value (PyInt 0)) (Py.value (PyFloat 1)).
Proof.
  apply (Norm_posterior_between
           (PyInt 0) (PyInt 1) (PyInt 1) (PyFloat 1) (PyFloat 1) (PyInt 1));
    solve_fits.
Defined.

(** X7.  Precisions add: for positive scales and weights, given as floats
    or as ints in the int64 range whose scales have squares below [2^63],
    [moments] (with
    [log=False]) of the updated parameters returns the updated location as
    mean and, as variance, the reciprocal of the sum of the two precisions
    [weight / scale²]; it emits no warning. *)
Theorem Norm_posterior_moments
    (lib : library) (loc_p scale_p weight_p loc_d scale_d weight_d : number) :
  0 < Py.value scale_p -> 0 < Py.value weight_p ->
  0 < Py.value scale_d -> 0 < Py.value weight_d ->
  summary_fits loc_p scale_p weight_p -> summary_fits loc_d scale_d weight_d ->
  exists loc scale var : number,
    Norm.posterior [loc_p; scale_p; weight_p] [loc_d; scale_d; weight_d]
    = Returned (loc, scale)
    /\ Norm.moments lib loc scale false = (Returned (loc, var), [])
    /\ Py.value var
       = 1 / (inv_var (Py.value scale_p) (Py.value weight_p)
              + inv_var (Py.value scale_d) (Py.value weight_d)).
Proof.
  intros Hsp Hwp Hsd Hwd (_ & Hfp & _) (_ & Hfd & _).
  eexists _, _, _. split; [apply Norm_posterior_fits; assumption |].
  split; [reflexivity |].
  cbn [np.power Py.value]. apply posterior_variance; assumption.
Qed.

Lemma Norm_posterior_moments_witness :
  exists loc scale var : number,
    Norm.posterior [PyInt 0; PyInt 1; PyInt 1] [PyFloat 1; PyFloat 1; PyInt 1]
    = Returned (loc, scale)
    /\ Norm.moments stub_library loc scale false = (Returned (loc, var), [])
    /\ Py.value var
       = 1 / (inv_var (Py.value (PyInt 1)) (Py.value (PyInt 1))
              + inv_var (Py.value (PyFloat 1)) (Py.value (PyInt 1))).
Proof.
  apply (Norm_posterior_moments stub_library
           (PyInt 0) (PyInt 1) (PyInt 1) (PyFloat 1) (PyFloat 1) (PyInt 1));
    solve_fits.
Defined.

(** A second update, the first result entering as a prior of weight 1. *)
Lemma Norm_posterior_twice (l0 s0 w0 l1 s1 w1 : R) (l2 s2 w2 : number) :
  0 < s0 -> 0 < w0 -> 0 < s1 -> 0 < w1 ->
  0 < Py.value s2 -> 0 < Py.value w2 -> np.square_fits s2 ->
  let P := inv_var s0 w0 + inv_var s1 w1
           + inv_var (Py.value s2) (Py.value w2) in
  Norm.posterior
    [NpFloat64 (1 / (inv_var s0 w0 + inv_var s1 w1)
                * (inv_var s0 w0 * l0 + inv_var s1 w1 * l1));
     NpFloat64 (sqrt (1 / (inv_var s0 w0 + inv_var s1 w1))); PyInt 1]
    [l2; s2; w2]
  = Returned
      (NpFloat64
         (1 / P * (inv_var s0 w0 * l0 + inv_var s1 w1 * l1
                   + inv_var (Py.value s2) (Py.value w2) * Py.value l2)),
       NpFloat64 (sqrt (1 / P))).
Proof.
  intros H0 Hw0 H1 Hw1 H2 Hw2 Hf2 P.
  pose proof (inv_var_pos s0 w0 H0 Hw0) as HA.
  pose proof (inv_var_pos s1 w1 H1 Hw1) as HB.
  pose proof (inv_var_pos _ _ H2 Hw2) as HC.
  rewrite Norm_posterior_fits by (try exact I; assumption).
  cbn [Py.value].
  assert (Hiv : inv_var (sqrt (1 / (inv_var s0 w0 + inv_var s1 w1))) 1
                = inv_var s0 w0 + inv_var s1 w1).
  { unfold inv_var at 1. rewrite posterior_variance by assumption.
    field. lra. }
  rewrite !Hiv. fold P.
  do 3 f_equal. field. unfold P. lra.
Qed.

(** X8.  Two Normal updates in a row, the first result entering the second
    as a prior of weight 1, return the pooled posterior: location
    [Σ precision·location / Σ precision] and scale [sqrt (1 / Σ precision)]
    over the prior and both data summaries; so the order in which the two
    summaries are applied does not matter.  The numbers are floats, or
    ints in the int64 range whose scales have squares below [2^63]. *)
Theorem Norm_posterior_pools (l0 s0 w0 l1 s1 w1 l2 s2 w2 : number) :
  0 < Py.value s0 -> 0 < Py.value w0 -> 0 < Py.value s1 -> 0 < Py.value w1 ->
  0 < Py.value s2 -> 0 < Py.value w2 ->
  summary_fits l0 s0 w0 -> summary_fits l1 s1 w1 -> summary_fits l2 s2 w2 ->
  let P := inv_var (Py.value s0) (Py.value w0)
           + inv_var (Py.value s1) (Py.value w1)
           + inv_var (Py.value s2) (Py.value w2) in
  exists loc1 scale1 loc2 scale2 : number,
    Norm.posterior [l0; s0; w0] [l1; s1; w1] = Returned (loc1, scale1)
    /\ Norm.posterior [l0; s0; w0] [l2; s2; w2] = Returned (loc2, scale2)
    /\ Norm.posterior [loc1; scale1; PyInt 1] [l2; s2; w2]
       = Returned
           (NpFloat64
              (1 / P * (inv_var (Py.value s0) (Py.value w0) * Py.value l0
                        + inv_var (Py.value s1) (Py.value w1) * Py.value l1
                        + inv_var (Py.value s2) (Py.value w2) * Py.value l2)),
            NpFloat64 (sqrt (1 / P)))
    /\ Norm.posterior [loc1; scale1; PyInt 1] [l2; s2; w2]
       = Norm.posterior [loc2; scale2; PyInt 1] [l1; s1; w1].
Proof.
  intros H0 Hw0 H1 Hw1 H2 Hw2 (_ & Hf0 & _) (_ & Hf1 & _) (_ & Hf2 & _) P.
  eexists _, _, _, _.
  split; [apply Norm_posterior_fits; assumption |].
  split; [apply Norm_posterior_fits; assumption |].
  rewrite !Norm_posterior_twice by assumption.
  split; [reflexivity |].
  replace (inv_var (Py.value s0) (Py.value w0)
           + inv_var (Py.value s2) (Py.value w2)
           + inv_var (Py.value s1) (Py.value w1))
    with P by (unfold P; ring).
  unfold P. do 3 f_equal. ring.
Qed.

Lemma Norm_posterior_pools_witness :
  let P := inv_var (Py.value (PyInt 1)) (Py.value (PyInt 1))
           + inv_var (Py.value (PyInt 1)) (Py.value (PyInt 1))
           + inv_var (Py.value (PyFloat 2)) (Py.value (PyInt 5)) in
  exists loc1 scale1 loc2 scale2 : number,
    Norm.posterior [PyInt 0; PyInt 1; PyInt 1] [PyInt 1; PyInt 1; PyInt 1]
    = Returned (loc1, scale1)
    /\ Norm.posterior [PyInt 0; PyInt 1; PyInt 1] [PyInt 3; PyFloat 2; PyInt 5]
       = Returned (loc2, scale2)
    /\ Norm.posterior [loc1; scale1; PyInt 1] [PyInt 3; PyFloat 2; PyInt 5]
       = Returned
           (NpFloat64
              (1 / P
               * (inv_var (Py.value (PyInt 1)) (Py.value (PyInt 1))
                  * Py.value (PyInt 0)
                  + inv_var (Py.value (PyInt 1)) (Py.value (PyInt 1))
                    * Py.value (PyInt 1)
                  + inv_var (Py.value (PyFloat 2)) (Py.value (PyInt 5))
                    * Py.value (PyInt 3))),
            NpFloat64 (sqrt (1 / P)))
    /\ Norm.posterior [loc1; scale1; PyInt 1] [PyInt 3; PyFloat 2; PyInt 5]
       = Norm.posterior [loc2; scale2; PyInt 1] [PyInt 1; PyInt 1; PyInt 1].
Proof.
  apply (Norm_posterior_pools (PyInt 0) (PyInt 1) (PyInt 1)
           (PyInt 1) (PyInt 1) (PyInt 1) (PyInt 3) (PyFloat 2) (PyInt 5));
    solve_fits.
Defined.

(** X9.  Data of weight 0 carry no information: with a positive prior scale
    and weight and a non-zero data scale (the numbers being floats, or
    ints in the int64 range whose scales have squares below [2^63]), the
    update returns the prior's
    location and the scale [scale_p / sqrt weight_p], which is the prior's
    own scale when its weight is 1. *)
Theorem Norm_posterior_zero_weight
    (loc_p scale_p weight_p loc_d scale_d weight_d : number) :
  0 < Py.value scale_p -> 0 < Py.value weight_p ->
  Py.value scale_d <> 0 -> Py.value weight_d = 0 ->
  summary_fits loc_p scale_p weight_p -> summary_fits loc_d scale_d weight_d ->
  Norm.posterior [loc_p; scale_p; weight_p] [loc_d; scale_d; weight_d]
  = Returned (NpFloat64 (Py.value loc_p),
              NpFloat64 (Py.value scale_p / sqrt (Py.value weight_p)))
  /\ (Py.value weight_p = 1 ->
      Norm.posterior [loc_p; scale_p; weight_p] [loc_d; scale_d; weight_d]
      = Returned (NpFloat64 (Py.value loc_p), NpFloat64 (Py.value scale_p))).
Proof.
  intros Hsp Hwp Hsd Hwd (_ & Hfp & _) (_ & Hfd & _).
  assert (Hsq : 0 < Py.value scale_p ^ 2) by (apply pow_lt; assumption).
  assert (Hd : Py.value scale_d ^ 2 <> 0) by (apply pow_nonzero; assumption).
  assert (Hmain :
            Norm.posterior [loc_p; scale_p; weight_p] [loc_d; scale_d; weight_d]
            = Returned (NpFloat64 (Py.value loc_p),
                        NpFloat64 (Py.value scale_p / sqrt (Py.value weight_p)))).
  { rewrite Norm_posterior_fits by assumption. unfold inv_var. rewrite Hwd.
    replace (1 / (Py.value weight_p / Py.value scale_p ^ 2
                  + 0 / Py.value scale_d ^ 2))
      with (Py.value scale_p ^ 2 / Py.value weight_p)
      by (field; repeat split; lra).
    rewrite sqrt_div by lra. rewrite sqrt_pow2 by lra.
    do 3 f_equal. field. split; lra. }
  split; [exact Hmain |].
  intros H1. rewrite Hmain, H1, sqrt_1. do 3 f_equal. field.
Qed.

Lemma Norm_posterior_zero_weight_witness :
  Norm.posterior [PyInt 3; PyInt 2; PyInt 4] [PyInt 7; PyFloat 5; PyInt 0]
  = Returned (NpFloat64 (Py.value (PyInt 3)),
              NpFloat64 (Py.value (PyInt 2) / sqrt (Py.value (PyInt 4))))
  /\ (Py.value (PyInt 4) = 1 ->
      Norm.posterior [PyInt 3; PyInt 2; PyInt 4] [PyInt 7; PyFloat 5; PyInt 0]
      = Returned (NpFloat64 (Py.value (PyInt 3)),
                  NpFloat64 (Py.value (PyInt 2)))).
Proof.
  apply (Norm_posterior_zero_weight
           (PyInt 3) (PyInt 2) (PyInt 4) (PyInt 7) (PyFloat 5) (PyInt 0));
    solve_fits.
Defined.

(** ** Normal moments *)

(** X10.  With a float [par2], or an int whose square stays below [2^63],
    and a non-zero [par1], a float or an int of the int64 range, the
    [log=False] branch of [Norm.moments] returns [par1] itself and the
    non-negative variance [par2²], and never warns, and the [log=True]
    branch returns a non-negative variance equal to the
    [log=False] variance divided by [par1²]. *)
Theorem Norm_moments_variances (lib : library) (par1 par2 : number) :
  Py.value par1 <> 0 -> Py.in_int64 par1 -> np.square_fits par2 ->
  exists var mean_log var_log : number,
    Norm.moments lib par1 par2 false = (Returned (par1, var), [])
    /\ Py.value var = Py.value par2 ^ 2
    /\ 0 <= Py.value var
    /\ fst (Norm.moments lib par1 par2 true) = Returned (mean_log, var_log)
    /\ 0 <= Py.value var_log
    /\ Py.value var_log = Py.value var / Py.value par1 ^ 2.
Proof.
  intros Hp _ Hfit.
  destruct (truediv_value par2 par1 Hp) as (q & Hq & Hvq & Hfq).
  eexists _, _, _. split; [reflexivity |].
  rewrite power_fits by assumption.
  split; [reflexivity |]. split; [apply pow2_ge_0 |].
  unfold Norm.moments. cbn [fst]. rewrite Hq. cbn [Py.bind].
  rewrite (power_float q 2 Hfq). split; [reflexivity |].
  cbn [Py.value]. rewrite Hvq. split; [apply pow2_ge_0 |].
  field. assumption.
Qed.

Lemma Norm_moments_variances_witness :
  exists var mean_log var_log : number,
    Norm.moments stub_library (PyFloat 3) (PyInt 1) false
    = (Returned (PyFloat 3, var), [])
    /\ Py.value var = Py.value (PyInt 1) ^ 2
    /\ 0 <= Py.value var
    /\ fst (Norm.moments stub_library (PyFloat 3) (PyInt 1) true)
       = Returned (mean_log, var_log)
    /\ 0 <= Py.value var_log
    /\ Py.value var_log = Py.value var / Py.value (PyFloat 3) ^ 2.
Proof.
  apply (Norm_moments_variances stub_library (PyFloat 3) (PyInt 1));
    solve_fits.
Defined.

(** ** The Normal quadrature rule *)

Lemma Py_int_below_1 (x : R) : x < 1 -> (Py.int x < 1)%Z.
Proof.
  intros Hx. unfold Py.int. destruct (Rle_dec 0 x) as [Hpos | Hneg].
  - destruct (base_Int_part x) as [Hle _]. apply lt_IZR. lra.
  - destruct (base_Int_part (- x)) as [_ Hgt].
    assert (H0 : (-1 < Int_part (- x))%Z) by (apply lt_IZR; lra). lia.
Qed.

Lemma stub_hermitenorm_rejects : hermitenorm_rejects stub_library.
Proof.
  intros n Hn. cbn. destruct (Z.ltb_spec n 1) as [_ | Hge]; [reflexivity | lia].
Qed.

Lemma stub_roots_2 :
  roots_hermitenorm stub_library (Py.int 2) = Returned ([0; 0], [1; 1], 2).
Proof. rewrite Py_int_IZR. reflexivity. Qed.

(** X11.  [Norm.gq] is a location-scale map of the standard rule: the
    weights do not depend on [(par1, par2)], and each node is
    [par2 * x + par1] for the node [x] of the rule at [(0, 1)]. *)
Theorem Norm_gq_location_scale
    (lib : library) (n par1 par2 : R) (nodes0 weights0 : list R) :
  Norm.gq lib n 0 1 = Returned (nodes0, weights0) ->
  Norm.gq lib n par1 par2
  = Returned (map (fun x => par2 * x + par1) nodes0, weights0).
Proof.
  unfold Norm.gq.
  destruct (roots_hermitenorm lib (Py.int n)) as [[[x w] m] | e];
    cbn [Py.bind]; [| discriminate].
  intros H. injection H as <- <-.
  rewrite map_map. do 2 f_equal.
  apply map_ext. intros xi. f_equal. ring.
Qed.

Lemma Norm_gq_location_scale_witness :
  Norm.gq stub_library 2 3 2
  = Returned (map (fun x => 2 * x + 3) [1 * 0 + 0; 1 * 0 + 0], [1 / 2; 1 / 2]).
Proof.
  apply (Norm_gq_location_scale stub_library 2 3 2). apply stub_Norm_gq.
Defined.

Lemma affine_rule_sum (par1 par2 m : R) (x w : list R) :
  length x = length w ->
  Py.sum (np.map2 Rmult (map (fun xi => par2 * xi + par1) x)
            (map (fun wi => wi / m) w))
  = par2 * (Py.sum (np.map2 Rmult x w) / m) + par1 * (Py.sum w / m).
Proof.
  revert w. induction x as [|xi x IH]; intros [|wi w] Hlen;
    try discriminate.
  - unfold Py.sum; cbn. unfold Rdiv. ring.
  - cbn [map np.map2]. rewrite !Py_sum_cons, IH by (injection Hlen; auto).
    unfold Rdiv. ring.
Qed.

(** X12.  The rule [Norm.gq] returns has the mean
    [par1 + par2 * μ], where [μ] is the mean [Σ x·w / m] of the standard
    rule the generator returned; when that rule is centred, the weighted
    sum of the nodes is exactly the location [par1]. *)
Theorem Norm_gq_mean
    (lib : library) (n par1 par2 : R) (x w : list R) (m : R) :
  roots_hermitenorm lib (Py.int n) = Returned (x, w, m) ->
  length x = length w -> Py.sum w = m -> m <> 0 ->
  exists nodes weights : list R,
    Norm.gq lib n par1 par2 = Returned (nodes, weights)
    /\ Py.sum (np.map2 Rmult nodes weights)
       = par1 + par2 * (Py.sum (np.map2 Rmult x w) / m)
    /\ (Py.sum (np.map2 Rmult x w) = 0 ->
        Py.sum (np.map2 Rmult nodes weights) = par1).
Proof.
  intros Hroots Hlen Hsum Hm.
  unfold Norm.gq. rewrite Hroots. cbn [Py.bind].
  eexists _, _. split; [reflexivity |].
  rewrite affine_rule_sum, Hsum by assumption.
  split.
  - field. assumption.
  - intros ->. field. assumption.
Qed.

Lemma Norm_gq_mean_witness :
  exists nodes weights : list R,
    Norm.gq stub_library 2 3 2 = Returned (nodes, weights)
    /\ Py.sum (np.map2 Rmult nodes weights)
       = 3 + 2 * (Py.sum (np.map2 Rmult [0; 0] [1; 1]) / 2)
    /\ (Py.sum (np.map2 Rmult [0; 0] [1; 1]) = 0 ->
        Py.sum (np.map2 Rmult nodes weights) = 3).
Proof.
  apply (Norm_gq_mean stub_library 2 3 2 [0; 0] [1; 1] 2 stub_roots_2);
    [reflexivity | unfold Py.sum; simpl; lra | lra].
Defined.

Lemma Py_sum_nonneg (w : list R) :
  Forall (fun wi => 0 <= wi) w ->
  0 <= Py.sum w /\ Forall (fun wi => wi <= Py.sum w) w.
Proof.
  induction 1 as [|wi w Hwi Hw [IH0 IH]].
  - split; [unfold Py.sum; simpl; lra | constructor].
  - rewrite Py_sum_cons. split; [lra |].
    constructor; [lra |].
    eapply Forall_impl; [| exact IH]. intros a Ha. cbn in Ha. lra.
Qed.

(** X13.  When the generator's weights are non-negative and [m] is their
    non-zero sum, every weight [Norm.gq] returns lies between 0 and 1. *)
Theorem Norm_gq_weights_in_unit_interval
    (lib : library) (n par1 par2 : R) (x w : list R) (m : R) :
  roots_hermitenorm lib (Py.int n) = Returned (x, w, m) ->
  Forall (fun wi => 0 <= wi) w -> Py.sum w = m -> m <> 0 ->
  exists nodes weights : list R,
    Norm.gq lib n par1 par2 = Returned (nodes, weights)
    /\ Forall (fun wi => 0 <= wi <= 1) weights.
Proof.
  intros Hroots Hw Hsum Hm.
  unfold Norm.gq. rewrite Hroots. cbn [Py.bind].
  eexists _, _. split; [reflexivity |].
  destruct (Py_sum_nonneg w Hw) as [H0 Hle]. rewrite Hsum in H0, Hle.
  assert (Hpos : 0 < m) by lra.
  apply Forall_map.
  rewrite Forall_forall in Hw, Hle |- *. intros wi Hin.
  specialize (Hw wi Hin). specialize (Hle wi Hin). cbn in Hw, Hle.
  split.
  - apply Rmult_le_pos; [assumption | apply Rlt_le, Rinv_0_lt_compat; lra].
  - apply Rmult_le_reg_r with (r := m); [assumption |].
    unfold Rdiv. rewrite Rmult_assoc, Rinv_l by assumption. lra.
Qed.

Lemma Norm_gq_weights_in_unit_interval_witness :
  exists nodes weights : list R,
    Norm.gq stub_library 2 3 2 = Returned (nodes, weights)
    /\ Forall (fun wi => 0 <= wi <= 1) weights.
Proof.
  apply (Norm_gq_weights_in_unit_interval stub_library 2 3 2 [0; 0] [1; 1] 2
           stub_roots_2);
    [repeat constructor; lra | unfold Py.sum; simpl; lra | lra].
Defined.

(** X14.  [Norm.gq] keeps the order of the generator's nodes when the scale
    [par2] is positive: if the standard nodes increase strictly with their
    index, so do the returned nodes. *)
Theorem Norm_gq_nodes_increase
    (lib : library) (n par1 par2 : R) (x w : list R) (m : R) :
  roots_hermitenorm lib (Py.int n) = Returned (x, w, m) ->
  (forall i j : nat, (i < j < length x)%nat -> nth i x 0 < nth j x 0) ->
  0 < par2 ->
  exists nodes weights : list R,
    Norm.gq lib n par1 par2 = Returned (nodes, weights)
    /\ length nodes = length x
    /\ forall i j : nat, (i < j < length nodes)%nat ->
         nth i nodes 0 < nth j nodes 0.
Proof.
  intros Hroots Hinc Hp.
  unfold Norm.gq. rewrite Hroots. cbn [Py.bind].
  eexists _, _. split; [reflexivity |].
  rewrite length_map. split; [reflexivity |].
  intros i j Hij.
  rewrite (nth_indep _ 0 (par2 * 0 + par1)) by (rewrite length_map; lia).
  rewrite (nth_indep _ 0 (par2 * 0 + par1) (n := j)) by (rewrite length_map; lia).
  rewrite !(map_nth (fun xi => par2 * xi + par1)).
  specialize (Hinc i j Hij). nra.
Qed.

Lemma two_point_roots :
  roots_hermitenorm two_point_library (Py.int 2)
  = Returned ([-1; 1], [sqrt (2 * PI) / 2; sqrt (2 * PI) / 2], sqrt (2 * PI)).
Proof. rewrite Py_int_IZR. reflexivity. Qed.

Lemma Norm_gq_nodes_increase_witness :
  exists nodes weights : list R,
    Norm.gq two_point_library 2 3 2 = Returned (nodes, weights)
    /\ length nodes = length [-1; 1]
    /\ forall i j : nat, (i < j < length nodes)%nat ->
         nth i nodes 0 < nth j nodes 0.
Proof.
  apply (Norm_gq_nodes_increase two_point_library 2 3 2 [-1; 1]
           [sqrt (2 * PI) / 2; sqrt (2 * PI) / 2] (sqrt (2 * PI)) two_point_roots);
    [| lra].
  intros [|[|i]] [|[|j]] Hij; cbn in *; try lia; lra.
Defined.

(** ** The order of the rule *)

(** X15.  The order [n] enters [gq], and through it [risk], only by
    [int(n)]: for both families a fractional order gives exactly what its
    integer part gives. *)
Theorem order_enters_through_int
    (lib : library) (n par1 par2 b_par1 b_par2 : R) :
  Norm.gq lib n par1 par2 = Norm.gq lib (IZR (Py.int n)) par1 par2
  /\ Beta.gq lib n par1 par2 = Beta.gq lib (IZR (Py.int n)) par1 par2
  /\ BayesABDist.risk (Norm.cls lib) par1 par2 b_par1 b_par2 n
     = BayesABDist.risk (Norm.cls lib) par1 par2 b_par1 b_par2 (IZR (Py.int n))
  /\ BayesABDist.risk (Beta.cls lib) par1 par2 b_par1 b_par2 n
     = BayesABDist.risk (Beta.cls lib) par1 par2 b_par1 b_par2 (IZR (Py.int n)).
Proof.
  unfold BayesABDist.risk. cbn [BayesABDist.gq Norm.cls Beta.cls].
  unfold Norm.gq, Beta.gq. rewrite Py_int_IZR.
  repeat split; reflexivity.
Qed.

(** X16.  With SciPy's generator, [Norm.gq] and [risk] on [Norm] are
    defined exactly for the orders [n >= 1]: every [n < 1], a fraction
    between 0 and 1 included since it truncates to 0, makes both raise
    [ValueError]; every [n >= 1] makes both return. *)
Theorem Norm_order_domain
    (lib : library) (a_par1 a_par2 b_par1 b_par2 n : R) :
  hermitenorm_rule lib -> hermitenorm_rejects lib ->
  (n < 1 ->
   Norm.gq lib n a_par1 a_par2 = Raised ValueError
   /\ BayesABDist.risk (Norm.cls lib) a_par1 a_par2 b_par1 b_par2 n
      = Raised ValueError)
  /\ (1 <= n ->
      (exists rule, Norm.gq lib n a_par1 a_par2 = Returned rule)
      /\ (exists out,
             BayesABDist.risk (Norm.cls lib) a_par1 a_par2 b_par1 b_par2 n
             = Returned out)).
Proof.
  intros Hrule Hrej. split.
  - intros Hn.
    assert (Hgq : forall par1 par2, Norm.gq lib n par1 par2 = Raised ValueError).
    { intros par1 par2. unfold Norm.gq.
      rewrite (Hrej (Py.int n) (Py_int_below_1 n Hn)). reflexivity. }
    split; [apply Hgq |].
    unfold BayesABDist.risk. cbn [BayesABDist.gq Norm.cls].
    rewrite Hgq. reflexivity.
  - intros Hn. split.
    + destruct (Norm_gq_rule lib n a_par1 a_par2 Hrule Hn) as (x & w & H & _).
      exists (x, w). exact H.
    + destruct (Norm_gq_rule lib n a_par1 a_par2 Hrule Hn)
        as (xa & wa & Ha & Hxa & Hwa & _).
      destruct (Norm_gq_rule lib n b_par1 b_par2 Hrule Hn)
        as (xb & wb & Hb & Hxb & Hwb & _).
      eexists. unfold BayesABDist.risk. cbn [BayesABDist.gq Norm.cls].
      rewrite Ha, Hb. cbn [Py.bind].
      apply risk_after_rules; congruence.
Qed.

Lemma Norm_order_domain_witness :
  (1 / 2 < 1 ->
   Norm.gq stub_library (1 / 2) 0 1 = Raised ValueError
   /\ BayesABDist.risk (Norm.cls stub_library) 0 1 3 2 (1 / 2)
      = Raised ValueError)
  /\ (1 <= 1 / 2 ->
      (exists rule, Norm.gq stub_library (1 / 2) 0 1 = Returned rule)
      /\ (exists out,
             BayesABDist.risk (Norm.cls stub_library) 0 1 3 2 (1 / 2)
             = Returned out)).
Proof.
  apply (Norm_order_domain stub_library 0 1 3 2 (1 / 2)
           stub_hermitenorm_rule stub_hermitenorm_rejects).
Defined.

(** ** Exchanging the arms *)

(** X17.  Exchanging the two arms exchanges the two components of the
    risk: if [risk] on arms A, B returns [out], then [risk] on B, A returns
    [out] reversed. *)
Theorem risk_exchanges_with_arms
    (cls : BayesABDist.t) (a_par1 a_par2 b_par1 b_par2 n : R) (out : list R) :
  BayesABDist.risk cls a_par1 a_par2 b_par1 b_par2 n = Returned out ->
  BayesABDist.risk cls b_par1 b_par2 a_par1 a_par2 n = Returned (rev out).
Proof.
  unfold BayesABDist.risk.
  destruct (BayesABDist.gq cls n a_par1 a_par2) as [[nodes_a weights_a] | e];
    cbn [Py.bind]; [| discriminate].
  destruct (BayesABDist.gq cls n b_par1 b_par2) as [[nodes_b weights_b] | e];
    cbn [Py.bind]; [| discriminate].
  destruct (np.multiply nodes_a _) as [ta | e]; cbn [Py.bind]; [| discriminate].
  destruct (np.multiply ta weights_a) as [ta' | e]; cbn [Py.bind]; [| discriminate].
  destruct (np.multiply nodes_b _) as [tb | e]; cbn [Py.bind]; [| discriminate].
  destruct (np.multiply tb weights_b) as [tb' | e]; cbn [Py.bind]; [| discriminate].
  rewrite !mean_array_pair. cbn [Py.bind map].
  intros H. injection H as <-. cbn [rev app].
  rewrite (Rplus_comm (Py.sum tb')). reflexivity.
Qed.

Lemma risk_exchanges_with_arms_witness :
  BayesABDist.risk (Norm.cls stub_library) 3 2 0 1 2
  = Returned
      (rev
         [gq_est (norm stub_library) 0 1 3 2 [1 * 0 + 0; 1 * 0 + 0] [1 / 2; 1 / 2]
            [2 * 0 + 3; 2 * 0 + 3] [1 / 2; 1 / 2] - 0;
          gq_est (norm stub_library) 0 1 3 2 [1 * 0 + 0; 1 * 0 + 0] [1 / 2; 1 / 2]
            [2 * 0 + 3; 2 * 0 + 3] [1 / 2; 1 / 2] - 3]).
Proof.
  apply (risk_exchanges_with_arms (Norm.cls stub_library) 0 1 3 2 2).
  apply stub_Norm_risk.
Defined.

(** ** Units and weights of a Normal update *)

(** X18.  [Norm.posterior] follows a change of units: when the locations of
    prior and data are mapped by [x ↦ c·x + d] with [c > 0] and the scales
    multiplied by [c], the updated location is mapped the same way and the
    updated scale is multiplied by [c].  The numbers are floats, or ints
    in the int64 range whose scales have squares below [2^63]. *)
Theorem Norm_posterior_affine
    (loc_p scale_p weight_p loc_d scale_d weight_d : number)
    (loc_p' scale_p' loc_d' scale_d' : number) (c d : R) :
  0 < Py.value scale_p -> 0 < Py.value weight_p ->
  0 < Py.value scale_d -> 0 < Py.value weight_d -> 0 < c ->
  summary_fits loc_p scale_p weight_p -> summary_fits loc_d scale_d weight_d ->
  summary_fits loc_p' scale_p' weight_p ->
  summary_fits loc_d' scale_d' weight_d ->
  Py.value loc_p' = c * Py.value loc_p + d ->
  Py.value loc_d' = c * Py.value loc_d + d ->
  Py.value scale_p' = c * Py.value scale_p ->
  Py.value scale_d' = c * Py.value scale_d ->
  exists loc scale : number,
    Norm.posterior [loc_p; scale_p; weight_p] [loc_d; scale_d; weight_d]
    = Returned (loc, scale)
    /\ Norm.posterior [loc_p'; scale_p'; weight_p] [loc_d'; scale_d'; weight_d]
       = Returned (NpFloat64 (c * Py.value loc + d),
                   NpFloat64 (c * Py.value scale)).
Proof.
  intros Hsp Hwp Hsd Hwd Hc (_ & Hfp & _) (_ & Hfd & _)
    (_ & Hfp' & _) (_ & Hfd' & _) Hlp Hld Hsp' Hsd'.
  eexists _, _. split; [apply Norm_posterior_fits; assumption |].
  rewrite Norm_posterior_fits by assumption.
  rewrite Hlp, Hld, Hsp', Hsd'. cbn [Py.value].
  pose proof (inv_var_pos _ _ Hsp Hwp) as HA.
  pose proof (inv_var_pos _ _ Hsd Hwd) as HB.
  assert (HA' : inv_var (c * Py.value scale_p) (Py.value weight_p)
                = inv_var (Py.value scale_p) (Py.value weight_p) / c ^ 2)
    by (unfold inv_var; field; split; lra).
  assert (HB' : inv_var (c * Py.value scale_d) (Py.value weight_d)
                = inv_var (Py.value scale_d) (Py.value weight_d) / c ^ 2)
    by (unfold inv_var; field; split; lra).
  rewrite HA', HB'.
  set (A := inv_var (Py.value scale_p) (Py.value weight_p)) in *.
  set (B := inv_var (Py.value scale_d) (Py.value weight_d)) in *.
  assert (Hvar : 1 / (A / c ^ 2 + B / c ^ 2) = c ^ 2 * (1 / (A + B)))
    by (field; split; lra).
  rewrite Hvar. f_equal. f_equal.
  - f_equal. field. split; lra.
  - f_equal. rewrite sqrt_mult_alt by (apply pow2_ge_0).
    rewrite sqrt_pow2 by lra. reflexivity.
Qed.

Lemma Norm_posterior_affine_witness :
  exists loc scale : number,
    Norm.posterior [PyInt 0; PyInt 1; PyInt 1] [PyInt 1; PyInt 1; PyInt 1]
    = Returned (loc, scale)
    /\ Norm.posterior [PyInt 32; PyInt 100; PyInt 1] [PyInt 132; PyInt 100; PyInt 1]
       = Returned (NpFloat64 (100 * Py.value loc + 32),
                   NpFloat64 (100 * Py.value scale)).
Proof.
  apply (Norm_posterior_affine (PyInt 0) (PyInt 1) (PyInt 1)
           (PyInt 1) (PyInt 1) (PyInt 1)
           (PyInt 32) (PyInt 100) (PyInt 132) (PyInt 100) 100 32);
    solve_fits.
Defined.

(** X19.  A weight is a multiplier of precision: a summary of scale [s]
    and weight [w > 0] (floats, or ints in the int64 range with the
    square of [s] below [2^63]) updates exactly like the summary of the
    float scale [s / sqrt w] and weight 1, whether it is the prior or the
    data. *)
Theorem Norm_posterior_weight_as_scale
    (loc_p scale_p weight_p loc_d scale_d weight_d : number) :
  0 < Py.value scale_p -> 0 < Py.value weight_p ->
  0 < Py.value scale_d -> 0 < Py.value weight_d ->
  summary_fits loc_p scale_p weight_p -> summary_fits loc_d scale_d weight_d ->
  Norm.posterior [loc_p; scale_p; weight_p] [loc_d; scale_d; weight_d]
  = Norm.posterior
      [loc_p; NpFloat64 (Py.value scale_p / sqrt (Py.value weight_p)); PyInt 1]
      [loc_d; NpFloat64 (Py.value scale_d / sqrt (Py.value weight_d)); PyInt 1].
Proof.
  intros Hsp Hwp Hsd Hwd (_ & Hfp & _) (_ & Hfd & _).
  rewrite !Norm_posterior_fits by (try exact I; assumption).
  cbn [Py.value].
  assert (Hw : forall s w : R, 0 < s -> 0 < w ->
                 inv_var (s / sqrt w) 1 = inv_var s w).
  { intros s w Hs Hw0. unfold inv_var.
    assert (Hq : 0 < sqrt w) by (apply sqrt_lt_R0; assumption).
    replace ((s / sqrt w) ^ 2) with (s ^ 2 / sqrt w ^ 2) by (field; lra).
    rewrite pow2_sqrt by lra. field. split; lra. }
  rewrite !Hw by assumption. reflexivity.
Qed.

Lemma Norm_posterior_weight_as_scale_witness :
  Norm.posterior [PyInt 0; PyInt 2; PyInt 4] [PyInt 1; PyFloat 3; PyInt 9]
  = Norm.posterior
      [PyInt 0; NpFloat64 (Py.value (PyInt 2) / sqrt (Py.value (PyInt 4))); PyInt 1]
      [PyInt 1; NpFloat64 (Py.value (PyFloat 3) / sqrt (Py.value (PyInt 9))); PyInt 1].
Proof.
  apply (Norm_posterior_weight_as_scale
           (PyInt 0) (PyInt 2) (PyInt 4) (PyInt 1) (PyFloat 3) (PyInt 9));
    solve_fits.
Defined.
